(** * A volatility-breakout backtester: ledger, signal generator, engine

    Shallow embedding of the Python package [backtester]
    ([broker.py], [strategy.py], [engine.py]) and the properties its
    specification states about it.

    Conventions of the embedding.
    - A Python [float] is read in two ways.  In the modules [Broker],
      [Series], [VolatilityBreakoutStrategy] and [Backtester] it is an
      exact rational ([Q]); the missing value [NaN] of a pandas Series is
      [None], so a Series of floats is a [list (option Q)] read by
      position, its labels being the places [0 .. n-1].  A division by
      zero inside a Series yields a missing value.  The prices handed to
      the package are finite numbers.  This reading serves the properties
      that no rounding can touch (lengths, ranges, orders of events,
      integer quantities).
    - In the modules [F64], [Broker64] and [Backtester64] a [float] is an
      IEEE-754 binary64 number ([spec_float], precision 53, round to
      nearest even) and [//], [int()] and the conversion of an [int] are
      those of CPython.  This reading serves the properties that rounding
      decides: how an entry is sized and what it leaves in cash.
    - A Python [int] is a [Z].
    - A Python exception is a value of [exn]; a method of a mutable
      object is a function from the object's state to an outcome and
      the state the object is left in (the state survives a raise).
    - [numpy]'s square root has no exact rational counterpart; it is an
      interface ([Sqrt]) the development is parametric in. *)

From Stdlib Require Import ZArith QArith Qround String Ascii List Bool Lia Lqa.
From Stdlib Require Import SpecFloat.
Import ListNotations.

(** ** Exceptions and outcomes *)

Inductive exn : Type :=
| ValueError (msg : string)
| ZeroDivisionError
| KeyError (label : nat)
| OverflowError (msg : string).

Inductive result (A : Type) : Type :=
| Ok (a : A)
| Raise (e : exn).

Arguments Ok {A} a.
Arguments Raise {A} e.

Definition is_ok {A} (r : result A) : bool :=
  match r with Ok _ => true | Raise _ => false end.

Definition bind_result {A B} (r : result A) (f : A -> result B) : result B :=
  match r with
  | Ok a => f a
  | Raise e => Raise e
  end.

(** ** Python numeric helpers *)

Definition Qltb (x y : Q) : bool := negb (Qle_bool y x).

(** [str.lower] on the ASCII range. *)
Definition lower_ascii (c : ascii) : ascii :=
  let n := nat_of_ascii c in
  if (65 <=? n)%nat && (n <=? 90)%nat then ascii_of_nat (n + 32) else c.

Fixpoint lower (s : string) : string :=
  match s with
  | EmptyString => EmptyString
  | String c s' => String (lower_ascii c) (lower s')
  end.

(** [x // y] on floats, then [int(...)], in the exact reading: the
    floor of the quotient; a zero divisor raises.  The rounded quotient
    of CPython, which can exceed this floor or be infinite, is
    [Backtester64.entry_qty]. *)
Definition floordiv (x y : Q) : result Z :=
  if Qeq_bool y 0 then Raise ZeroDivisionError else Ok (Qfloor (x / y)).

(** ** broker.py *)

Module Trade.
(** One entry of [trade_log]: the dict
    [{"side", "qty", "price", "cash", "position"}]. *)
Record t : Type := mk {
  side : string;
  qty : Z;
  price : Q;
  cash : Q;
  position : Z
}.
End Trade.

Module Broker.

Record t : Type := mk {
  cash : Q;
  position : Z;
  trade_log : list Trade.t
}.

(** A method of a broker: outcome and the broker afterwards. *)
Definition M (A : Type) : Type := t -> result A * t.

Definition ret {A} (a : A) : M A := fun self => (Ok a, self).

Definition bind {A B} (m : M A) (f : A -> M B) : M B :=
  fun self =>
    match m self with
    | (Ok a, self') => f a self'
    | (Raise e, self') => (Raise e, self')
    end.

Definition raise {A} (e : exn) : M A := fun self => (Raise e, self).

Definition lift {A} (r : result A) : M A := fun self => (r, self).

Definition get : M t := fun self => (Ok self, self).

(** [Broker.__init__] *)
Definition init (cash : Q) : t :=
  {| cash := cash; position := 0%Z; trade_log := [] |}.

(** The assignments of the two recognised branches of [market_order],
    sum and product exact; rounded in [Broker64.market_order]. *)
Definition apply_side (side : string) (qty : Z) (price : Q) (self : t) : t :=
  if String.eqb (lower side) "buy" then
    {| cash := cash self - inject_Z qty * price;
       position := position self + qty;
       trade_log := trade_log self |}
  else if String.eqb (lower side) "sell" then
    {| cash := cash self + inject_Z qty * price;
       position := position self - qty;
       trade_log := trade_log self |}
  else self.

Definition append_trade (side : string) (qty : Z) (price : Q) (self : t) : t :=
  {| cash := cash self;
     position := position self;
     trade_log := trade_log self ++
       [ {| Trade.side := side; Trade.qty := qty; Trade.price := price;
            Trade.cash := cash self; Trade.position := position self |} ] |}.

(** [Broker.market_order] *)
Definition market_order (side : string) (qty : Z) (price : Q) : M unit :=
  fun self =>
    if (qty <=? 0)%Z then
      (Raise (ValueError "Quantity must be positive."), self)
    else if Qle_bool price 0 then
      (Raise (ValueError "Price must be positive."), self)
    else
      (Ok tt, append_trade side qty price (apply_side side qty price self)).

(** [Broker.total_value], sum and product exact; rounded in
    [Broker64.total_value]. *)
Definition total_value (current_price : Q) (self : t) : Q :=
  cash self + inject_Z (position self) * current_price.

End Broker.

Declare Scope broker_scope.
Delimit Scope broker_scope with broker.
Notation "x <- m ;; k" := (Broker.bind m (fun x => k))
  (at level 61, m at next level, right associativity) : broker_scope.
Notation "m ;; k" := (Broker.bind m (fun _ => k))
  (at level 61, right associativity) : broker_scope.

(** ** pandas Series of floats, by position *)

(** [numpy.sqrt]. *)
Class Sqrt : Type := { sqrt : Q -> Q }.

(** The one law of the square root the development relies on. *)
Class SqrtZero (SQ : Sqrt) : Prop :=
  sqrt_zero : forall x : Q, x == 0 -> sqrt x == 0.

Module Series.

Definition t : Type := list (option Q).

(** Elementwise arithmetic; a missing operand gives a missing result. *)
Definition lift2 (f : Q -> Q -> Q) (x y : option Q) : option Q :=
  match x, y with
  | Some a, Some b => Some (f a b)
  | _, _ => None
  end.

Definition div (x y : option Q) : option Q :=
  match x, y with
  | Some a, Some b => if Qeq_bool b 0 then None else Some (a / b)
  | _, _ => None
  end.

Fixpoint zip_with {A B C} (f : A -> B -> C) (xs : list A) (ys : list B) : list C :=
  match xs, ys with
  | x :: xs', y :: ys' => f x y :: zip_with f xs' ys'
  | _, _ => []
  end.

(** Comparisons with a missing value are false. *)
Definition gt (x y : option Q) : bool :=
  match x, y with
  | Some a, Some b => Qltb b a
  | _, _ => false
  end.

Definition lt (x y : option Q) : bool := gt y x.

Definition le (x y : option Q) : bool :=
  match x, y with
  | Some a, Some b => Qle_bool a b
  | _, _ => false
  end.

(** [s.shift(n)] for [n >= 0]: values move [n] places towards the end,
    the first [n] places are missing, the length is kept. *)
Definition shift (n : nat) (s : t) : t :=
  firstn (length s) (repeat None n ++ s).

(** [s.fillna(v)] *)
Definition fillna (v : Q) (s : t) : t :=
  map (fun x => match x with Some a => Some a | None => Some v end) s.

(** [s.replace(v, nan)] *)
Definition replace_nan (v : Q) (s : t) : t :=
  map (fun x => match x with
                | Some a => if Qeq_bool a v then None else Some a
                | None => None
                end) s.

(** [s.ffill()]: a missing value takes the last value seen before it. *)
Fixpoint ffill_from (last : option Q) (s : t) : t :=
  match s with
  | [] => []
  | Some a :: s' => Some a :: ffill_from (Some a) s'
  | None :: s' => last :: ffill_from last s'
  end.

Definition ffill (s : t) : t := ffill_from None s.

(** [s.loc[mask] = v] *)
Definition set_where (mask : list bool) (v : Q) (s : t) : t :=
  zip_with (fun (m : bool) x => if m then Some v else x) mask s.

(** [s.clip(lower=lo, upper=hi)] *)
Definition clip (lo hi : Q) (s : t) : t :=
  map (fun x => match x with
                | Some a => if Qltb a lo then Some lo
                            else if Qltb hi a then Some hi else Some a
                | None => None
                end) s.

(** [s.pct_change()] on a Series without missing values:
    [s / s.shift(1) - 1]. *)
Definition pct_change (s : t) : t :=
  zip_with (fun x p => lift2 Qminus (div x p) (Some 1)) s (shift 1 s).

(** The window of [w] places that ends at place [i]. *)
Definition window (w i : nat) (s : t) : t :=
  skipn (S i - w) (firstn (S i) s).

Fixpoint observations (s : t) : list Q :=
  match s with
  | [] => []
  | Some a :: s' => a :: observations s'
  | None :: s' => observations s'
  end.

Definition total (xs : list Q) : Q := fold_right Qplus 0 xs.

Definition count (xs : list Q) : Q := inject_Z (Z.of_nat (length xs)).

Definition mean (xs : list Q) : Q := total xs / count xs.

(** Sample variance, [ddof = 1]. *)
Definition var (xs : list Q) : Q :=
  total (map (fun x => (x - mean xs) * (x - mean xs)) xs) / (count xs - 1).

(** The standard deviation of one window: it needs [max min_periods 1]
    observations, and more than [ddof = 1]. *)
Definition std_of {SQ : Sqrt} (min_periods : nat) (win : t) : option Q :=
  let obs := observations win in
  if (Nat.max min_periods 1 <=? length obs)%nat && (1 <? length obs)%nat
  then Some (sqrt (var obs)) else None.

(** [s.rolling(window, min_periods=min_periods).std()].  pandas checks
    the two arguments, [min_periods] first, when the rolling object is
    built. *)
Definition rolling_std {SQ : Sqrt} (window_ min_periods : Z) (s : t) : result t :=
  if (min_periods <? 0)%Z then
    Raise (ValueError "min_periods must be >= 0")
  else if (window_ <? min_periods)%Z then
    Raise (ValueError "min_periods must be <= window")
  else if (window_ <? 0)%Z then
    Raise (ValueError "window must be an integer 0 or greater")
  else
    Ok (map (fun i => std_of (Z.to_nat min_periods)
                             (window (Z.to_nat window_) i s))
            (seq 0 (length s))).

End Series.

(** ** strategy.py *)

Module VolatilityBreakoutStrategy.

Record t : Type := mk {
  lookback : Z;
  k : Q;
  hold : bool;
  lag_signal : Z;
  long_only : bool
}.

(** [VolatilityBreakoutStrategy.__init__]: the five attributes are
    stored after a conversion to their type; nothing is checked. *)
Definition init (lookback : Z) (k : Q) (hold : bool) (lag_signal : Z)
           (long_only : bool) : result t :=
  Ok {| lookback := lookback; k := k; hold := hold;
        lag_signal := lag_signal; long_only := long_only |}.

Section Signals.
Context {SQ : Sqrt}.

(** [vol]: the rolling standard deviation of the returns, one place
    late. *)
Definition vol (self : t) (prices : list Q) : result Series.t :=
  bind_result
    (Series.rolling_std (lookback self) (lookback self)
                        (Series.pct_change (map Some prices)))
    (fun sd => Ok (Series.shift 1 sd)).

Definition up_band (self : t) (prev_close vol : Series.t) : Series.t :=
  Series.zip_with (fun p v => Series.lift2 Qmult p (Series.lift2 Qplus (Some 1) (Series.lift2 Qmult (Some (k self)) v)))
                  prev_close vol.

Definition dn_band (self : t) (prev_close vol : Series.t) : Series.t :=
  Series.zip_with (fun p v => Series.lift2 Qmult p (Series.lift2 Qminus (Some 1) (Series.lift2 Qmult (Some (k self)) v)))
                  prev_close vol.

(** [raw]: 0 everywhere, 1 above the upper band, and, unless
    [long_only], -1 below the lower band (assigned last). *)
Definition raw (self : t) (prices up dn : Series.t) : Series.t :=
  let raw0 := repeat (Some 0) (length prices) in
  let raw1 := Series.set_where (Series.zip_with Series.gt prices up) 1 raw0 in
  if negb (long_only self)
  then Series.set_where (Series.zip_with Series.lt prices dn) (-1) raw1
  else raw1.

Definition held (self : t) (raw : Series.t) : Series.t :=
  if hold self
  then Series.fillna 0 (Series.ffill (Series.replace_nan 0 raw))
  else raw.

Definition lagged (self : t) (sig : Series.t) : Series.t :=
  if (0 <? lag_signal self)%Z
  then Series.fillna 0 (Series.shift (Z.to_nat (lag_signal self)) sig)
  else sig.

(** [VolatilityBreakoutStrategy.signals] *)
Definition signals (self : t) (prices : list Q) : result Series.t :=
  let ps := map Some prices in
  let prev_close := Series.shift 1 ps in
  bind_result (vol self prices) (fun vol =>
    let up := up_band self prev_close vol in
    let dn := dn_band self prev_close vol in
    Ok (lagged self (held self (raw self ps up dn)))).

End Signals.

End VolatilityBreakoutStrategy.

(** ** engine.py *)

Module Backtester.

Import Broker.
Local Open Scope broker_scope.

(** The dict [run] returns: the equity Series (labels and values), the
    normalised signal Series and the broker's trade log. *)
Record run_result : Type := mk_result {
  equity_index : list nat;
  equity : list Q;
  signals : Series.t;
  trades : list Trade.t
}.

(** [sig.fillna(0).astype(float)] followed by
    [sig.clip(lower=0, upper=1)]. *)
Definition normalize (sig : Series.t) : Series.t :=
  Series.clip 0 1 (Series.fillna 0 sig).

(** [float(sig.loc[dt])]: the value at label [dt] (possibly nan); a
    label the Series does not have raises. *)
Definition loc (sig : Series.t) (dt : nat) : result (option Q) :=
  match nth_error sig dt with
  | Some v => Ok v
  | None => Raise (KeyError dt)
  end.

(** The orders of one pass through the loop body. *)
Definition trade (prev_sig cur_sig : option Q) (px : Q) : M unit :=
  if Series.le prev_sig (Some 0) && Series.gt cur_sig (Some 0) then
    self <- get ;;
    qty <- lift (floordiv (cash self) px) ;;
    if (0 <? qty)%Z then market_order "buy" qty px else ret tt
  else if Series.gt prev_sig (Some 0) && Series.le cur_sig (Some 0) then
    self <- get ;;
    let pos := position self in
    if (0 <? pos)%Z then market_order "sell" pos px else ret tt
  else ret tt.

(** The loop's variables between two passes. *)
Record loop_state : Type := mk_loop {
  prev_sig : option Q;
  equity_acc : list (nat * Q)
}.

(** One pass through the body of [for dt, px in prices.items()]. *)
Definition step (sig : Series.t) (st : loop_state) (item : nat * Q) : M loop_state :=
  let '(dt, px) := item in
  cur_sig <- lift (loc sig dt) ;;
  trade (prev_sig st) cur_sig px ;;
  self <- get ;;
  ret {| prev_sig := cur_sig;
         equity_acc := equity_acc st ++ [(dt, total_value px self)] |}.

(** The [for] loop: the passes in order; a raise ends it, the ledger
    keeping what the earlier passes did. *)
Fixpoint loop (sig : Series.t) (st : loop_state) (items : list (nat * Q)) : M loop_state :=
  match items with
  | [] => ret st
  | item :: rest => st' <- step sig st item ;; loop sig st' rest
  end.

(** [prices.items()] with the default labels [0 .. n-1]. *)
Definition items (prices : list Q) : list (nat * Q) :=
  combine (seq 0 (length prices)) prices.

(** [run] once the strategy has answered: everything after line 12. *)
Definition run_signals (sig : Series.t) (prices : list Q) : M run_result :=
  let sig := normalize sig in
  st <- loop sig {| prev_sig := Some 0; equity_acc := [] |} (items prices) ;;
  self <- get ;;
  ret {| equity_index := map fst (equity_acc st);
         equity := map snd (equity_acc st);
         signals := sig;
         trades := trade_log self |}.

(** [Backtester.run] with a [VolatilityBreakoutStrategy]. *)
Definition run {SQ : Sqrt} (strategy : VolatilityBreakoutStrategy.t)
           (prices : list Q) : M run_result :=
  sig <- lift (VolatilityBreakoutStrategy.signals strategy prices) ;;
  run_signals sig prices.

End Backtester.

(** ** binary64 *)

Module F64.

Local Open Scope Z_scope.

Definition prec : Z := 53.
Definition emax : Z := 1024.

Definition float : Type := spec_float.

(** The double nearest to [m * 2^e]. *)
Definition make (m e : Z) : float := binary_normalize prec emax m e false.

Definition add : float -> float -> float := SFadd prec emax.
Definition sub : float -> float -> float := SFsub prec emax.
Definition mul : float -> float -> float := SFmul prec emax.
Definition div : float -> float -> float := SFdiv prec emax.
Definition ltb : float -> float -> bool := SFltb.
Definition leb : float -> float -> bool := SFleb.
Definition eqb : float -> float -> bool := SFeqb.

Definition zero : float := S754_zero false.
Definition one : float := make 1 0.
Definition half : float := make 1 (-1).

Definition is_zero (x : float) : bool :=
  match x with S754_zero _ => true | _ => false end.

Definition sign (x : float) : bool :=
  match x with
  | S754_zero s | S754_infinity s | S754_finite s _ _ => s
  | S754_nan => false
  end.


(** C's [fmod]: the remainder of the truncated quotient, exact, with the
    sign of the dividend. *)
Definition fmod (x y : float) : float :=
  match x, y with
  | S754_nan, _ | _, S754_nan => S754_nan
  | S754_infinity _, _ => S754_nan
  | _, S754_zero _ => S754_nan
  | S754_zero _, _ => x
  | S754_finite _ _ _, S754_infinity _ => x
  | S754_finite sx mx ex, S754_finite _ my ey =>
      let e := Z.min ex ey in
      let r := Z.rem (Z.shiftl (Zpos mx) (ex - e)) (Z.shiftl (Zpos my) (ey - e)) in
      binary_normalize prec emax (cond_Zopp sx r) e sx
  end.

(** C's [floor]. *)
Definition floor (x : float) : float :=
  match x with
  | S754_finite s m e =>
      if 0 <=? e then x
      else
        let q := Z.shiftr (Zpos m) (- e) in
        let exact := Z.shiftl q (- e) =? Zpos m in
        if s then binary_normalize prec emax (- (if exact then q else q + 1)) 0 true
        else binary_normalize prec emax q 0 false
  | _ => x
  end.

(** CPython's [_float_div_mod], the quotient: [fmod], the division of
    what is left, a step down when the remainder and the divisor differ
    in sign, and a snap to the nearest integral value. *)
Definition floordiv_core (vx wx : float) : float :=
  let md := fmod vx wx in
  let dv := div (sub vx md) wx in
  let dv :=
    if negb (is_zero md) && negb (Bool.eqb (ltb wx zero) (ltb md zero))
    then sub dv one else dv in
  if negb (is_zero dv) then
    let fl := floor dv in
    if ltb half (sub dv fl) then add fl one else fl
  else S754_zero (sign (div vx wx)).

(** [vx // wx] on floats. *)
Definition floordiv (vx wx : float) : result float :=
  if eqb wx zero then Raise ZeroDivisionError
  else Ok (floordiv_core vx wx).

(** [int(x)] *)
Definition to_int (x : float) : result Z :=
  match x with
  | S754_nan => Raise (ValueError "cannot convert float NaN to integer")
  | S754_infinity _ =>
      Raise (OverflowError "cannot convert float infinity to integer")
  | S754_zero _ => Ok 0
  | S754_finite s m e =>
      Ok (cond_Zopp s (if 0 <=? e then Z.shiftl (Zpos m) e
                       else Z.shiftr (Zpos m) (- e)))
  end.

(** The conversion of an [int] operand of a float operation. *)
Definition of_int (n : Z) : result float :=
  match make n 0 with
  | S754_infinity _ => Raise (OverflowError "int too large to convert to float")
  | x => Ok x
  end.

End F64.

(** ** broker.py, in binary64 *)

Module Trade64.
Record t : Type := mk {
  side : string;
  qty : Z;
  price : F64.float;
  cash : F64.float;
  position : Z
}.
End Trade64.

Module Broker64.

Record t : Type := mk {
  cash : F64.float;
  position : Z;
  trade_log : list Trade64.t
}.

Definition M (A : Type) : Type := t -> result A * t.

Definition ret {A} (a : A) : M A := fun self => (Ok a, self).

Definition bind {A B} (m : M A) (f : A -> M B) : M B :=
  fun self =>
    match m self with
    | (Ok a, self') => f a self'
    | (Raise e, self') => (Raise e, self')
    end.

Definition lift {A} (r : result A) : M A := fun self => (r, self).

Definition get : M t := fun self => (Ok self, self).

(** [Broker.__init__]; an [int] given for the cash acts in every
    operation of the class as its conversion to [float]. *)
Definition init (cash : F64.float) : t :=
  {| cash := cash; position := 0%Z; trade_log := [] |}.

Definition append_trade (side : string) (qty : Z) (price : F64.float) (self : t) : t :=
  {| cash := cash self;
     position := position self;
     trade_log := trade_log self ++
       [ {| Trade64.side := side; Trade64.qty := qty; Trade64.price := price;
            Trade64.cash := cash self; Trade64.position := position self |} ] |}.

(** [Broker.market_order]; [qty * price] converts [qty] first, and that
    can raise before anything is assigned. *)
Definition market_order (side : string) (qty : Z) (price : F64.float) : M unit :=
  fun self =>
    if (qty <=? 0)%Z then
      (Raise (ValueError "Quantity must be positive."), self)
    else if F64.leb price F64.zero then
      (Raise (ValueError "Price must be positive."), self)
    else if String.eqb (lower side) "buy" then
      match F64.of_int qty with
      | Raise e => (Raise e, self)
      | Ok fq =>
          (Ok tt,
           append_trade side qty price
             {| cash := F64.sub (cash self) (F64.mul fq price);
                position := (position self + qty)%Z;
                trade_log := trade_log self |})
      end
    else if String.eqb (lower side) "sell" then
      match F64.of_int qty with
      | Raise e => (Raise e, self)
      | Ok fq =>
          (Ok tt,
           append_trade side qty price
             {| cash := F64.add (cash self) (F64.mul fq price);
                position := (position self - qty)%Z;
                trade_log := trade_log self |})
      end
    else (Ok tt, append_trade side qty price self).

(** [Broker.total_value] *)
Definition total_value (current_price : F64.float) (self : t) : result F64.float :=
  bind_result (F64.of_int (position self))
    (fun fp => Ok (F64.add (cash self) (F64.mul fp current_price))).

End Broker64.

Declare Scope broker64_scope.
Delimit Scope broker64_scope with broker64.
Notation "x <- m ;; k" := (Broker64.bind m (fun x => k))
  (at level 61, m at next level, right associativity) : broker64_scope.
Notation "m ;; k" := (Broker64.bind m (fun _ => k))
  (at level 61, right associativity) : broker64_scope.

(** ** engine.py, in binary64

    The loop of [run] on binary64 prices and cash.  The signal Series is
    the normalised one: its values are only ever compared with 0, so
    they stay the numbers they stand for. *)

Module Backtester64.

Import Broker64.
Local Open Scope broker64_scope.

(** [int(self.broker.cash // px)] *)
Definition entry_qty (cash px : F64.float) : result Z :=
  bind_result (F64.floordiv cash px) F64.to_int.

(** The orders of one pass through the loop body. *)
Definition trade (prev_sig cur_sig : option Q) (px : F64.float) : M unit :=
  if Series.le prev_sig (Some 0) && Series.gt cur_sig (Some 0) then
    self <- get ;;
    qty <- lift (entry_qty (cash self) px) ;;
    if (0 <? qty)%Z then market_order "buy" qty px else ret tt
  else if Series.gt prev_sig (Some 0) && Series.le cur_sig (Some 0) then
    self <- get ;;
    let pos := position self in
    if (0 <? pos)%Z then market_order "sell" pos px else ret tt
  else ret tt.

Record loop_state : Type := mk_loop {
  prev_sig : option Q;
  equity_acc : list (nat * F64.float)
}.

(** One pass through the body of [for dt, px in prices.items()]. *)
Definition step (sig : Series.t) (st : loop_state) (item : nat * F64.float) : M loop_state :=
  let '(dt, px) := item in
  cur_sig <- lift (Backtester.loc sig dt) ;;
  trade (prev_sig st) cur_sig px ;;
  self <- get ;;
  v <- lift (total_value px self) ;;
  ret {| prev_sig := cur_sig; equity_acc := equity_acc st ++ [(dt, v)] |}.

Fixpoint loop (sig : Series.t) (st : loop_state) (items : list (nat * F64.float)) : M loop_state :=
  match items with
  | [] => ret st
  | item :: rest => st' <- step sig st item ;; loop sig st' rest
  end.

(** [prices.items()] with the default labels [0 .. n-1]. *)
Definition items (prices : list F64.float) : list (nat * F64.float) :=
  combine (seq 0 (length prices)) prices.

End Backtester64.

(** ** Sample doubles *)

(** [0.3], that is [0x1.3333333333333p-2]. *)
Definition f_0_3 : F64.float := F64.make 5404319552844595 (-54).

(** [3.2], that is [0x1.999999999999ap+1]. *)
Definition f_3_2 : F64.float := F64.make 7205759403792794 (-51).

(** [1e17], [1104.0], [1000.0], [30.0], [10.0], [-16.0]: integers. *)
Definition f_1e17 : F64.float := F64.make 100000000000000000 0.
Definition f_1104 : F64.float := F64.make 1104 0.
Definition f_10 : F64.float := F64.make 10 0.
Definition f_minus_16 : F64.float := F64.make (-16) 0.

(** ** A computable square root

    The integer square root of the argument scaled by [10^20], scaled
    back: the square root rounded down to ten decimal places. *)
Definition sqrt_down (x : Q) : Q :=
  Z.sqrt (Qfloor (x * inject_Z (10 ^ 20))) # (10 ^ 10).

Definition SqrtDown : Sqrt := {| sqrt := sqrt_down |}.

(** ** Vocabulary of the properties *)

(** Every value present in a place of a Series satisfies [P]. *)
Definition present (P : Q -> Prop) (x : option Q) : Prop :=
  match x with Some a => P a | None => True end.

(** The place holds a value, and it satisfies [P]. *)
Definition valued (P : Q -> Prop) (x : option Q) : Prop :=
  match x with Some a => P a | None => False end.

(** The same raw-signal configuration with another lag. *)
Definition with_lag (self : VolatilityBreakoutStrategy.t) (lag : Z) :
  VolatilityBreakoutStrategy.t :=
  {| VolatilityBreakoutStrategy.lookback := VolatilityBreakoutStrategy.lookback self;
     VolatilityBreakoutStrategy.k := VolatilityBreakoutStrategy.k self;
     VolatilityBreakoutStrategy.hold := VolatilityBreakoutStrategy.hold self;
     VolatilityBreakoutStrategy.lag_signal := lag;
     VolatilityBreakoutStrategy.long_only := VolatilityBreakoutStrategy.long_only self |}.

(** The same configuration with another hold mode and no lag. *)
Definition with_hold (self : VolatilityBreakoutStrategy.t) (hold : bool) :
  VolatilityBreakoutStrategy.t :=
  {| VolatilityBreakoutStrategy.lookback := VolatilityBreakoutStrategy.lookback self;
     VolatilityBreakoutStrategy.k := VolatilityBreakoutStrategy.k self;
     VolatilityBreakoutStrategy.hold := hold;
     VolatilityBreakoutStrategy.lag_signal := 0;
     VolatilityBreakoutStrategy.long_only := VolatilityBreakoutStrategy.long_only self |}.

(** A history made of round trips, with the position it leaves: Buys and
    Sells alternate from a Buy on, a Buy starts from no position, a Sell
    returns the whole of it. *)
Inductive round_trips : list Trade.t -> Z -> Prop :=
| round_trips_none : round_trips [] 0
| round_trips_buy (log : list Trade.t) (q : Z) (px c : Q) :
    round_trips log 0 -> (0 < q)%Z ->
    round_trips (log ++ [ {| Trade.side := "buy"; Trade.qty := q;
                             Trade.price := px; Trade.cash := c;
                             Trade.position := q |} ]) q
| round_trips_sell (log : list Trade.t) (q : Z) (px c : Q) :
    round_trips log q -> (0 < q)%Z ->
    round_trips (log ++ [ {| Trade.side := "sell"; Trade.qty := q;
                             Trade.price := px; Trade.cash := c;
                             Trade.position := 0 |} ]) 0.

(** The engine between two passes: the history is made of round trips
    and, the last exposure being a number, the ledger holds nothing
    when that exposure is not positive. *)
Definition engine_inv (prev : option Q) (self : Broker.t) : Prop :=
  round_trips (Broker.trade_log self) (Broker.position self)
  /\ exists p : Q, prev = Some p /\ (p <= 0 -> Broker.position self = 0%Z).

(** The three things one pass can do to the ledger: nothing (possibly
    raising, never at a positive price), a Buy sized by the floor of
    cash over price, a Sell of the whole position. *)
Inductive trade_spec (px : Q) (self : Broker.t) : result unit * Broker.t -> Prop :=
| trade_nothing (r : result unit) :
    (0 < px -> r = Ok tt) -> trade_spec px self (r, self)
| trade_buy :
    0 < px -> (0 < Qfloor (Broker.cash self / px))%Z ->
    trade_spec px self
      (Ok tt, Broker.append_trade "buy" (Qfloor (Broker.cash self / px)) px
                (Broker.apply_side "buy" (Qfloor (Broker.cash self / px)) px self))
| trade_sell :
    0 < px -> (0 < Broker.position self)%Z ->
    trade_spec px self
      (Ok tt, Broker.append_trade "sell" (Broker.position self) px
                (Broker.apply_side "sell" (Broker.position self) px self)).

(** ** Sample inputs *)

Definition sample_prices : list Q := [100; 101; 100; 120; 110; 90; 95; 60; 61].

(** A long-short configuration: on [sample_prices] its raw signal takes
    the three values 0, 1 and -1. *)
Definition sample_strategy : VolatilityBreakoutStrategy.t :=
  {| VolatilityBreakoutStrategy.lookback := 2;
     VolatilityBreakoutStrategy.k := 1;
     VolatilityBreakoutStrategy.hold := true;
     VolatilityBreakoutStrategy.lag_signal := 0;
     VolatilityBreakoutStrategy.long_only := false |}.

(** * Properties *)

(** ** The repository's tests, replayed on the embedding *)

(** [test_buy_updates_cash_and_position] *)
Example test_buy_updates_cash_and_position :
  Broker.market_order "buy" 10 50 (Broker.init 1000)
  = (Ok tt,
     {| Broker.cash := 500; Broker.position := 10;
        Broker.trade_log :=
          [ {| Trade.side := "buy"; Trade.qty := 10; Trade.price := 50;
               Trade.cash := 500; Trade.position := 10 |} ] |}).
Proof. reflexivity. Qed.

(** [test_case_insensitive_side] *)
Example test_case_insensitive_side :
  Broker.position (snd (Broker.market_order "BUY" 1 10 (Broker.init 1000))) = 1%Z
  /\ Broker.position
       (snd (Broker.market_order "Sell" 1 10
               (snd (Broker.market_order "BUY" 1 10 (Broker.init 1000))))) = 0%Z.
Proof. split; reflexivity. Qed.

(** [test_rejects_zero_quantity], [test_rejects_negative_price] *)
Example test_rejects_bad_orders :
  Broker.market_order "buy" 0 50 (Broker.init 1000)
  = (Raise (ValueError "Quantity must be positive."), Broker.init 1000)
  /\ Broker.market_order "buy" 10 (-50) (Broker.init 1000)
     = (Raise (ValueError "Price must be positive."), Broker.init 1000).
Proof. split; reflexivity. Qed.

(** [test_allows_negative_cash], [test_allows_negative_position] *)
Example test_allows_negative :
  Broker.cash (snd (Broker.market_order "buy" 10 50 (Broker.init 100))) = -400
  /\ Broker.position (snd (Broker.market_order "sell" 10 50 (Broker.init 1000)))
     = (-10)%Z.
Proof. split; reflexivity. Qed.

(** [test_signal_clipping_to_0_1] *)
Example test_signal_clipping :
  Backtester.normalize [Some 0; Some 0.5; Some 1; Some 1.5; Some 2; Some (-0.5); None]
  = [Some 0; Some 0.5; Some 1; Some 1; Some 1; Some 0; Some 0].
Proof. reflexivity. Qed.

(** [test_buys_maximum_shares_with_available_cash] *)
Example test_buys_maximum_shares :
  map Trade.qty
      (Broker.trade_log
         (snd (Backtester.run_signals (Some 0 :: repeat (Some 1) 9)
                 (repeat 30 10) (Broker.init 1000))))
  = [33%Z].
Proof. reflexivity. Qed.

(** [test_no_buy_if_insufficient_cash] *)
Example test_no_buy_if_insufficient_cash :
  Broker.trade_log
    (snd (Backtester.run_signals (Some 0 :: repeat (Some 1) 9)
            (repeat 100 10) (Broker.init 10)))
  = [].
Proof. reflexivity. Qed.

(** [test_sells_entire_position] *)
Example test_sells_entire_position :
  map (fun tr => (Trade.side tr, Trade.qty tr, Trade.position tr))
      (Broker.trade_log
         (snd (Backtester.run_signals [Some 0; Some 1; Some 0; Some 0]
                 [100; 100; 100; 100] (Broker.init 10000))))
  = [("buy"%string, 100%Z, 100%Z); ("sell"%string, 100%Z, 0%Z)].
Proof. reflexivity. Qed.

(** [test_very_short_series]: fewer prices than the look-back. *)
Example test_very_short_series :
  @VolatilityBreakoutStrategy.signals SqrtDown
    {| VolatilityBreakoutStrategy.lookback := 20;
       VolatilityBreakoutStrategy.k := 1.5;
       VolatilityBreakoutStrategy.hold := true;
       VolatilityBreakoutStrategy.lag_signal := 1;
       VolatilityBreakoutStrategy.long_only := true |} [100; 101; 102]
  = Ok [Some 0; Some 0; Some 0].
Proof. reflexivity. Qed.

(** ** Comparisons *)

Lemma Qltb_lt (x y : Q) : Qltb x y = true <-> x < y.
Proof.
  unfold Qltb. rewrite negb_true_iff, <- not_true_iff_false, Qle_bool_iff.
  split; [apply Qnot_le_lt | apply Qlt_not_le].
Qed.

Lemma Qltb_ge (x y : Q) : Qltb x y = false <-> y <= x.
Proof.
  unfold Qltb. rewrite negb_false_iff. apply Qle_bool_iff.
Qed.

Lemma Qle_bool_gt (x y : Q) : Qle_bool x y = false <-> y < x.
Proof.
  rewrite <- not_true_iff_false, Qle_bool_iff.
  split; [apply Qnot_le_lt | apply Qlt_not_le].
Qed.

Lemma Qeq_bool_pos (x : Q) : 0 < x -> Qeq_bool x 0 = false.
Proof.
  intros H. apply not_true_iff_false. intros E.
  apply Qeq_bool_iff in E. rewrite E in H. revert H. apply Qlt_irrefl.
Qed.

Lemma lower_buy : lower "buy" = "buy"%string.
Proof. reflexivity. Qed.

Lemma lower_sell : lower "sell" = "sell"%string.
Proof. reflexivity. Qed.

(** ** The ledger *)

Section Ledger.
Import Broker.

(** [market_order] raises exactly on a non-positive quantity or a
    non-positive price; the side plays no part in it. *)
Lemma market_order_raises_iff (side : string) (qty : Z) (price : Q) (self : t) :
  is_ok (fst (market_order side qty price self)) = false
  <-> (qty <= 0)%Z \/ price <= 0.
Proof.
  unfold market_order.
  destruct (Z.leb_spec qty 0) as [Hq | Hq]; cbn.
  - split; auto.
  - destruct (Qle_bool price 0) eqn:Hp; cbn.
    + apply Qle_bool_iff in Hp. split; auto.
    + apply Qle_bool_gt in Hp. split; [discriminate |].
      intros [H | H]; [lia | exfalso; revert Hp; apply Qle_not_lt, H].
Qed.

(** A raise leaves the broker as it was. *)
Lemma market_order_raise_unchanged (side : string) (qty : Z) (price : Q) (self : t) :
  is_ok (fst (market_order side qty price self)) = false ->
  snd (market_order side qty price self) = self.
Proof.
  unfold market_order.
  destruct (qty <=? 0)%Z; [reflexivity |].
  destruct (Qle_bool price 0); [reflexivity | discriminate].
Qed.

Lemma market_order_ok (side : string) (qty : Z) (price : Q) (self : t) :
  (0 < qty)%Z -> 0 < price ->
  market_order side qty price self
  = (Ok tt, append_trade side qty price (apply_side side qty price self)).
Proof.
  intros Hq Hp. unfold market_order.
  destruct (Z.leb_spec qty 0); [lia |].
  apply Qle_bool_gt in Hp. rewrite Hp. reflexivity.
Qed.

End Ledger.

(** C1 (the code departs from the claim).  An order whose side is neither
    Buy nor Sell, with a positive quantity and a positive price, raises
    nothing: [market_order "hold" 1 10] on a fresh ledger of 1000 returns
    normally, leaves cash and position as they were and appends a trade
    record to the history. *)
Theorem market_order_unrecognized_side :
  Broker.market_order "hold" 1 10 (Broker.init 1000)
  = (Ok tt,
     {| Broker.cash := 1000; Broker.position := 0;
        Broker.trade_log :=
          [ {| Trade.side := "hold"; Trade.qty := 1; Trade.price := 10;
               Trade.cash := 1000; Trade.position := 0 |} ] |}).
Proof. reflexivity. Qed.

(** ** One pass of the engine *)

Section Transitions.
Import Broker Backtester.

(** What an exit transition does to the ledger. *)
Lemma trade_exit (prev cur px : Q) (self : t) :
  0 < prev -> cur <= 0 -> 0 < px ->
  trade (Some prev) (Some cur) px self
  = if (0 <? position self)%Z
    then (Ok tt, append_trade "sell" (position self) px
                   (apply_side "sell" (position self) px self))
    else (Ok tt, self).
Proof.
  intros Hprev Hcur Hpx. unfold trade. cbn [Series.le Series.gt].
  pose proof Hprev as Hprev'. apply Qle_bool_gt in Hprev'.
  apply Qltb_lt in Hprev. apply Qle_bool_iff in Hcur.
  rewrite Hprev', Hprev, Hcur. cbn [andb].
  unfold bind, get.
  destruct (Z.ltb_spec 0 (position self)) as [Hq | Hq].
  - apply market_order_ok; assumption.
  - reflexivity.
Qed.

Lemma step_unfold (sig : Series.t) (st : loop_state) (dt : nat) (px : Q)
      (cur : option Q) (self : t) :
  nth_error sig dt = Some cur ->
  step sig st (dt, px) self
  = match trade (prev_sig st) cur px self with
    | (Ok _, self') =>
        (Ok {| prev_sig := cur;
               equity_acc := equity_acc st ++ [(dt, total_value px self')] |},
         self')
    | (Raise e, self') => (Raise e, self')
    end.
Proof.
  intros Hsig. unfold step, bind, lift, loc, get, ret. rewrite Hsig.
  destruct (trade (prev_sig st) cur px self) as [[[] | e] self']; reflexivity.
Qed.

End Transitions.

(** C3.  Exit liquidation law.  At an exit transition (previous exposure
    [> 0], current normalised exposure [<= 0]) at a positive price, the
    pass raises nothing; if the position is positive the ledger records
    one Sell whose quantity is the whole position and is left with
    position 0; if the position is [<= 0] the ledger is untouched. *)
Theorem exit_liquidation_law :
  forall (sig : Series.t) (st : Backtester.loop_state) (dt : nat)
         (prev cur px : Q) (self : Broker.t),
    Backtester.prev_sig st = Some prev ->
    nth_error sig dt = Some (Some cur) ->
    0 < prev -> cur <= 0 -> 0 < px ->
    exists st' self',
      Backtester.step sig st (dt, px) self = (Ok st', self')
      /\ ((0 < Broker.position self)%Z ->
          Broker.position self' = 0%Z
          /\ Broker.trade_log self'
             = Broker.trade_log self ++
               [ {| Trade.side := "sell"; Trade.qty := Broker.position self;
                    Trade.price := px;
                    Trade.cash := Broker.cash self
                                  + inject_Z (Broker.position self) * px;
                    Trade.position := 0 |} ])
      /\ ((Broker.position self <= 0)%Z -> self' = self).
Proof.
  intros sig st dt prev cur px self Hst Hsig Hprev Hcur Hpx.
  rewrite (step_unfold sig st dt px _ self Hsig), Hst.
  rewrite (trade_exit prev cur px self Hprev Hcur Hpx).
  destruct (Z.ltb_spec 0 (Broker.position self)) as [Hq | Hq].
  - eexists _, _. split; [reflexivity |]. split; [| lia].
    intros _. unfold Broker.append_trade, Broker.apply_side.
    rewrite lower_sell. cbn. rewrite Z.sub_diag. auto.
  - eexists _, _. split; [reflexivity |]. split; [lia | reflexivity].
Qed.

Lemma exit_liquidation_law_witness :
  0 < 1 /\ (0 # 1) <= 0 /\ 0 < 60 /\
  exists st' self',
    Backtester.step [Some 0] {| Backtester.prev_sig := Some 1;
                                Backtester.equity_acc := [] |}
                    (0%nat, 60)
                    {| Broker.cash := 40; Broker.position := 8;
                       Broker.trade_log := [] |} = (Ok st', self')
    /\ Broker.position self' = 0%Z.
Proof.
  split; [reflexivity |]. split; [apply Qle_refl |]. split; [reflexivity |].
  destruct (exit_liquidation_law [Some 0]
              {| Backtester.prev_sig := Some 1; Backtester.equity_acc := [] |}
              0%nat 1 0 60
              {| Broker.cash := 40; Broker.position := 8;
                 Broker.trade_log := [] |}
              eq_refl eq_refl eq_refl (Qle_refl 0) eq_refl)
    as (st' & self' & Hstep & Hsell & _).
  exists st', self'. split; [exact Hstep |].
  exact (proj1 (Hsell eq_refl)).
Defined.

(** ** One pass of the engine, in binary64 *)

Section Transitions64.
Import Broker64 Backtester64.



(** What an order does to the position. *)
Lemma market_order_position (side : string) (qty : Z) (px : F64.float) (self : t) :
  position (snd (market_order side qty px self)) = position self
  \/ (String.eqb (lower side) "buy" = true
      /\ position (snd (market_order side qty px self)) = (position self + qty)%Z)
  \/ (String.eqb (lower side) "sell" = true
      /\ position (snd (market_order side qty px self)) = (position self - qty)%Z).
Proof.
  unfold market_order.
  destruct (qty <=? 0)%Z; [now left |].
  destruct (F64.leb px F64.zero); [now left |].
  destruct (String.eqb (lower side) "buy") eqn:Hb.
  - destruct (F64.of_int qty); [right; left; auto | now left].
  - destruct (String.eqb (lower side) "sell") eqn:Hs.
    + destruct (F64.of_int qty); [right; right; auto | now left].
    + now left.
Qed.

(** The engine never makes the position negative. *)
Lemma trade_position (prev cur : option Q) (px : F64.float) (self : t) :
  (0 <= position self)%Z ->
  (0 <= position (snd (trade prev cur px self)))%Z.
Proof.
  intros Hpos. unfold trade.
  destruct (Series.le prev (Some 0) && Series.gt cur (Some 0)).
  - unfold bind, get, lift.
    destruct (entry_qty (cash self) px) as [q | e]; [| exact Hpos].
    destruct (Z.ltb_spec 0 q) as [Hq | Hq]; [| exact Hpos].
    destruct (market_order_position "buy" q px self)
      as [E | [[_ E] | [Hs _]]]; [rewrite E; lia .. | discriminate Hs].
  - destruct (Series.gt prev (Some 0) && Series.le cur (Some 0)); [| exact Hpos].
    unfold bind, get.
    destruct (Z.ltb_spec 0 (position self)) as [Hq | Hq]; [| exact Hpos].
    destruct (market_order_position "sell" (position self) px self)
      as [E | [[Hb _] | [_ E]]]; [rewrite E; lia | discriminate Hb | rewrite E; lia].
Qed.

(** The ledger a pass leaves is the one its orders leave. *)
Lemma step_ledger (sig : Series.t) (st : loop_state) (dt : nat) (px : F64.float)
      (self : t) :
  snd (step sig st (dt, px) self) = self
  \/ exists cur : option Q,
      snd (step sig st (dt, px) self) = snd (trade (prev_sig st) cur px self).
Proof.
  unfold step, bind, lift, Backtester.loc, get, ret.
  destruct (nth_error sig dt) as [cur |]; [| now left].
  right. exists cur.
  destruct (trade (prev_sig st) cur px self) as [[[] | e] s1]; [| reflexivity].
  destruct (total_value px s1); reflexivity.
Qed.

Lemma step_position (sig : Series.t) (st : loop_state) (item : nat * F64.float)
      (self : t) :
  (0 <= position self)%Z ->
  (0 <= position (snd (step sig st item self)))%Z.
Proof.
  intros Hpos. destruct item as [dt px].
  destruct (step_ledger sig st dt px self) as [-> | [cur ->]];
    [exact Hpos | apply trade_position, Hpos].
Qed.

Lemma loop_position (sig : Series.t) (items : list (nat * F64.float)) :
  forall (st : loop_state) (self : t),
    (0 <= position self)%Z ->
    (0 <= position (snd (loop sig st items self)))%Z.
Proof.
  induction items as [| item rest IH]; intros st self Hpos; [exact Hpos |].
  cbn [loop]. unfold bind.
  pose proof (step_position sig st item self Hpos) as Hs.
  destruct (step sig st item self) as [[st1 | e] s1]; cbn [snd] in Hs;
    [apply IH, Hs | exact Hs].
Qed.

End Transitions64.

(** The repository's sizing tests, and two sizes that rounding decides. *)


(** [test_no_buy_if_insufficient_cash]: 10 at 100.0. *)
Example entry_10_at_100 :
  Backtester64.trade (Some 0) (Some 1) (F64.make 100 0) (Broker64.init f_10)
  = (Ok tt, Broker64.init f_10).
Proof. vm_compute. reflexivity. Qed.

(** 1104 at 3.2 buys 344 and leaves [0x1.9999999999a00p+1], which is
    not below the price. *)
Example entry_1104_at_3_2 :
  Backtester64.entry_qty f_1104 f_3_2 = Ok 344%Z
  /\ Broker64.cash
       (snd (Backtester64.trade (Some 0) (Some 1) f_3_2 (Broker64.init f_1104)))
     = F64.make 7205759403792896 (-51)
  /\ F64.leb f_3_2 (F64.make 7205759403792896 (-51)) = true.
Proof. vm_compute. auto. Qed.

(** A quotient beyond the largest double: [2.0**1000 // (120 * 2.0**-40)]
    is infinite and [int] refuses it. *)
Example entry_overflow :
  Backtester64.trade (Some 0) (Some 1) (F64.make 120 (-40))
    (Broker64.init (F64.make 1 1000))
  = (Raise (OverflowError "cannot convert float infinity to integer"),
     Broker64.init (F64.make 1 1000)).
Proof. vm_compute. reflexivity. Qed.




(** C9 as stated fails.  From a fresh ledger with cash 1e17, which is
    not negative, one entry pass at price 0.3 returns and leaves cash
    -16.0: the rounded floor division sized the order above what the
    cash pays for. *)
Lemma engine_solvency_counterexample :
  exists (st' : Backtester64.loop_state) (self' : Broker64.t),
    F64.leb F64.zero f_1e17 = true
    /\ Backtester64.loop [Some 1]
         {| Backtester64.prev_sig := Some 0; Backtester64.equity_acc := [] |}
         (Backtester64.items [f_0_3]) (Broker64.init f_1e17)
       = (Ok st', self')
    /\ Broker64.cash self' = f_minus_16
    /\ F64.ltb (Broker64.cash self') F64.zero = true.
Proof.
  eexists. eexists. split; [reflexivity |].
  split; [vm_compute; reflexivity |]. split; reflexivity.
Qed.

(** C9, amended.  For every run started from a fresh ledger (position
    0), whatever the cash, the signal Series and the prices, the
    position is [>= 0] after every number of passes of the loop,
    whether the loop goes on or raises: the engine buys only positive
    quantities and sells only the whole of a positive position. *)
Theorem engine_position_nonnegative :
  forall (sig : Series.t) (prices : list F64.float) (cash0 : F64.float) (n : nat),
    Z.le 0
      (Broker64.position
         (snd (Backtester64.loop sig
                 {| Backtester64.prev_sig := Some 0;
                    Backtester64.equity_acc := [] |}
                 (firstn n (Backtester64.items prices))
                 (Broker64.init cash0)))).
Proof.
  intros sig prices cash0 n. apply loop_position. cbn. lia.
Qed.

(** ** Series: lengths *)

Section SeriesLengths.
Import Series.

Lemma zip_with_length {A B C} (f : A -> B -> C) (xs : list A) (ys : list B) :
  length (zip_with f xs ys) = Nat.min (length xs) (length ys).
Proof.
  revert ys. induction xs as [| x xs IH]; intros [| y ys]; cbn; auto.
Qed.

Lemma shift_length (n : nat) (s : t) : length (shift n s) = length s.
Proof.
  unfold shift. rewrite length_firstn, length_app, repeat_length. lia.
Qed.

Lemma fillna_length (v : Q) (s : t) : length (fillna v s) = length s.
Proof. apply length_map. Qed.

Lemma replace_nan_length (v : Q) (s : t) : length (replace_nan v s) = length s.
Proof. apply length_map. Qed.

Lemma clip_length (lo hi : Q) (s : t) : length (clip lo hi s) = length s.
Proof. apply length_map. Qed.

Lemma ffill_from_length (last : option Q) (s : t) :
  length (ffill_from last s) = length s.
Proof.
  revert last. induction s as [| [a |] s IH]; intros last; cbn; auto.
Qed.

Lemma set_where_length (mask : list bool) (v : Q) (s : t) :
  length mask = length s -> length (set_where mask v s) = length s.
Proof.
  intros H. unfold set_where. rewrite zip_with_length. lia.
Qed.

Lemma pct_change_length (s : t) : length (pct_change s) = length s.
Proof.
  unfold pct_change. rewrite zip_with_length, shift_length. lia.
Qed.

Lemma rolling_std_ok {SQ : Sqrt} (w : Z) (s : t) :
  (0 <= w)%Z ->
  rolling_std w w s
  = Ok (map (fun i => std_of (Z.to_nat w) (window (Z.to_nat w) i s))
            (seq 0 (length s))).
Proof.
  intros Hw. unfold rolling_std.
  destruct (Z.ltb_spec w 0); [lia |].
  destruct (Z.ltb_spec w w); [lia | reflexivity].
Qed.

Lemma rolling_std_raise {SQ : Sqrt} (w : Z) (s : t) :
  (w < 0)%Z ->
  rolling_std w w s = Raise (ValueError "min_periods must be >= 0").
Proof.
  intros Hw. unfold rolling_std.
  destruct (Z.ltb_spec w 0); [reflexivity | lia].
Qed.

End SeriesLengths.

Lemma Forall_prefix {A} (P : A -> Prop) (n : nat) (l : list A) :
  Forall P l -> Forall P (firstn n l).
Proof.
  intros H. revert n. induction H as [| x l Hx Hl IH]; intros [| n]; cbn; auto.
Qed.

Lemma map_fst_zip {A B} (l : list A) (l' : list B) :
  length l = length l' -> map fst (combine l l') = l.
Proof.
  revert l'. induction l as [| x l IH]; intros [| y l'] H; cbn in *;
    try discriminate; [reflexivity |].
  f_equal. apply IH. lia.
Qed.

(** ** Series: which values can occur *)

Section SeriesValues.
Import Series.
Variable P : Q -> Prop.

Lemma valued_present (s : t) : Forall (valued P) s -> Forall (present P) s.
Proof.
  apply Forall_impl. intros [a |]; cbn; tauto.
Qed.

Lemma repeat_valued (v : Q) (n : nat) : P v -> Forall (valued P) (repeat (Some v) n).
Proof.
  intros Hv. induction n; cbn; constructor; auto.
Qed.

Lemma set_where_valued (mask : list bool) (v : Q) (s : t) :
  P v -> Forall (valued P) s -> Forall (valued P) (set_where mask v s).
Proof.
  intros Hv Hs. revert mask. unfold set_where.
  induction Hs as [| x s Hx Hs IH]; intros [| m mask]; cbn; auto.
  constructor; [destruct m; assumption | apply IH].
Qed.

Lemma replace_nan_present (v : Q) (s : t) :
  Forall (present P) s -> Forall (present P) (replace_nan v s).
Proof.
  intros Hs. unfold replace_nan. apply Forall_map.
  revert Hs. apply Forall_impl. intros [a |]; cbn; auto.
  destruct (Qeq_bool a v); cbn; auto.
Qed.

Lemma ffill_from_present (last : option Q) (s : t) :
  present P last -> Forall (present P) s -> Forall (present P) (ffill_from last s).
Proof.
  intros Hl Hs. revert last Hl.
  induction Hs as [| [a |] s Hx Hs IH]; intros last Hl; cbn; auto.
Qed.

Lemma shift_present (n : nat) (s : t) :
  Forall (present P) s -> Forall (present P) (shift n s).
Proof.
  intros Hs. unfold shift. apply Forall_prefix, Forall_app. split; [| exact Hs].
  induction n; cbn; constructor; cbn; auto.
Qed.

Lemma fillna_valued (v : Q) (s : t) :
  P v -> Forall (present P) s -> Forall (valued P) (fillna v s).
Proof.
  intros Hv Hs. unfold fillna. apply Forall_map.
  revert Hs. apply Forall_impl. intros [a |]; cbn; auto.
Qed.

End SeriesValues.

(** ** The signal generator *)

Section StrategyFacts.
Import VolatilityBreakoutStrategy.
Context {SQ : Sqrt}.

Lemma vol_ok (self : t) (prices : list Q) :
  (0 <= lookback self)%Z ->
  vol self prices
  = Ok (Series.shift 1
          (map (fun i => Series.std_of (Z.to_nat (lookback self))
                           (Series.window (Z.to_nat (lookback self)) i
                              (Series.pct_change (map Some prices))))
               (seq 0 (length (Series.pct_change (map Some prices)))))).
Proof.
  intros H. unfold vol. rewrite (rolling_std_ok _ _ H). reflexivity.
Qed.

Lemma vol_length (self : t) (prices : list Q) (v : Series.t) :
  vol self prices = Ok v -> length v = length prices.
Proof.
  unfold vol, Series.rolling_std.
  destruct (lookback self <? 0)%Z; [discriminate |].
  destruct (lookback self <? lookback self)%Z; [discriminate |].
  cbn. intros E. injection E as <-.
  now rewrite shift_length, length_map, length_seq, pct_change_length, length_map.
Qed.

(** [signals] raises exactly when the look-back window is negative. *)
Lemma signals_raise (self : t) (prices : list Q) :
  (lookback self < 0)%Z ->
  signals self prices
  = Raise (ValueError "min_periods must be >= 0").
Proof.
  intros H. unfold signals, vol. rewrite (rolling_std_raise _ _ H). reflexivity.
Qed.

Lemma signals_ok (self : t) (prices : list Q) :
  (0 <= lookback self)%Z ->
  exists v,
    vol self prices = Ok v
    /\ signals self prices
       = Ok (lagged self (held self
               (raw self (map Some prices)
                    (up_band self (Series.shift 1 (map Some prices)) v)
                    (dn_band self (Series.shift 1 (map Some prices)) v)))).
Proof.
  intros H. unfold signals. rewrite (vol_ok _ _ H). eexists. split; reflexivity.
Qed.

Lemma signals_inv (self : t) (prices : list Q) (sig : Series.t) :
  signals self prices = Ok sig ->
  (0 <= lookback self)%Z
  /\ exists v,
      vol self prices = Ok v
      /\ sig = lagged self (held self
                 (raw self (map Some prices)
                      (up_band self (Series.shift 1 (map Some prices)) v)
                      (dn_band self (Series.shift 1 (map Some prices)) v))).
Proof.
  intros E. destruct (Z.lt_ge_cases (lookback self) 0) as [H | H].
  - rewrite (signals_raise _ _ H) in E. discriminate.
  - split; [exact H |]. destruct (signals_ok self prices H) as (v & Hv & Hs).
    exists v. split; [exact Hv |]. congruence.
Qed.

Lemma raw_length (self : t) (ps up dn : Series.t) :
  length up = length ps -> length dn = length ps ->
  length (raw self ps up dn) = length ps.
Proof.
  intros Hup Hdn. unfold raw.
  assert (H1 : length (Series.set_where (Series.zip_with Series.gt ps up) 1
                         (repeat (Some 0) (length ps))) = length ps).
  { rewrite set_where_length; rewrite ?zip_with_length, ?repeat_length; lia. }
  destruct (negb (long_only self)); [| exact H1].
  rewrite set_where_length; rewrite ?zip_with_length, ?H1; lia.
Qed.

Lemma held_length (self : t) (s : Series.t) : length (held self s) = length s.
Proof.
  unfold held. destruct (hold self); [| reflexivity].
  unfold Series.ffill.
  now rewrite fillna_length, ffill_from_length, replace_nan_length.
Qed.

Lemma lagged_length (self : t) (s : Series.t) : length (lagged self s) = length s.
Proof.
  unfold lagged. destruct (0 <? lag_signal self)%Z; [| reflexivity].
  now rewrite fillna_length, shift_length.
Qed.

(** The signal Series is as long as the price Series. *)
Lemma signals_length (self : t) (prices : list Q) (sig : Series.t) :
  signals self prices = Ok sig -> length sig = length prices.
Proof.
  intros E. apply signals_inv in E. destruct E as (_ & v & Hv & ->).
  apply vol_length in Hv.
  rewrite lagged_length, held_length, raw_length.
  - apply length_map.
  - unfold up_band. rewrite zip_with_length, shift_length, length_map. lia.
  - unfold dn_band. rewrite zip_with_length, shift_length, length_map. lia.
Qed.

Section Values.
Variable P : Q -> Prop.
Hypothesis P0 : P 0.
Hypothesis P1 : P 1.

Lemma raw_valued (self : t) (ps up dn : Series.t) :
  (long_only self = false -> P (-1)) ->
  Forall (valued P) (raw self ps up dn).
Proof.
  intros Hm. unfold raw.
  assert (H1 : Forall (valued P)
                 (Series.set_where (Series.zip_with Series.gt ps up) 1
                    (repeat (Some 0) (length ps)))).
  { apply set_where_valued; [exact P1 | apply repeat_valued, P0]. }
  destruct (long_only self); cbn [negb]; [exact H1 |].
  apply set_where_valued; auto.
Qed.

Lemma held_valued (self : t) (s : Series.t) :
  Forall (valued P) s -> Forall (valued P) (held self s).
Proof.
  intros Hs. unfold held. destruct (hold self); [| exact Hs].
  apply fillna_valued; [exact P0 |].
  apply ffill_from_present; [exact I |].
  apply replace_nan_present, valued_present, Hs.
Qed.

Lemma lagged_valued (self : t) (s : Series.t) :
  Forall (valued P) s -> Forall (valued P) (lagged self s).
Proof.
  intros Hs. unfold lagged. destruct (0 <? lag_signal self)%Z; [| exact Hs].
  apply fillna_valued; [exact P0 |].
  apply shift_present, valued_present, Hs.
Qed.

Lemma signals_valued (self : t) (prices : list Q) (sig : Series.t) :
  (long_only self = false -> P (-1)) ->
  signals self prices = Ok sig -> Forall (valued P) sig.
Proof.
  intros Hm E. apply signals_inv in E. destruct E as (_ & v & _ & ->).
  apply lagged_valued, held_valued, raw_valued, Hm.
Qed.

End Values.

End StrategyFacts.

(** C10.  Signal range.  Whatever the prices and the configuration (both
    hold modes, every lag), each value of the Series [signals] returns is
    -1, 0 or 1, none is missing, and with [long_only] each is 0 or 1;
    [signals] does return a Series whenever the look-back is not
    negative. *)
Theorem signals_range :
  forall (SQ : Sqrt) (self : VolatilityBreakoutStrategy.t) (prices : list Q),
    (forall sig,
        VolatilityBreakoutStrategy.signals self prices = Ok sig ->
        Forall (fun x => x = Some (-1) \/ x = Some 0 \/ x = Some 1) sig
        /\ (VolatilityBreakoutStrategy.long_only self = true ->
            Forall (fun x => x = Some 0 \/ x = Some 1) sig))
    /\ ((0 <= VolatilityBreakoutStrategy.lookback self)%Z ->
        exists sig, VolatilityBreakoutStrategy.signals self prices = Ok sig).
Proof.
  intros SQ self prices. split.
  - intros sig E. split.
    + apply (signals_valued (fun a => a = -1 \/ a = 0 \/ a = 1)) in E; auto.
      revert E. apply Forall_impl. intros [a |]; cbn; [| tauto].
      intros [-> | [-> | ->]]; auto.
    + intros Hlo.
      apply (signals_valued (fun a => a = 0 \/ a = 1)) in E; auto.
      * revert E. apply Forall_impl. intros [a |]; cbn; [| tauto].
        intros [-> | ->]; auto.
      * rewrite Hlo. discriminate.
  - intros H. destruct (signals_ok self prices H) as (v & _ & E). eauto.
Qed.

Lemma signals_range_witness :
  @VolatilityBreakoutStrategy.signals SqrtDown sample_strategy sample_prices
  = Ok [Some 0; Some 0; Some 0; Some 1; Some 1; Some 1; Some 1;
        Some (-1); Some (-1)]
  /\ Forall (fun x => x = Some (-1) \/ x = Some 0 \/ x = Some 1)
            [Some 0; Some 0; Some 0; Some 1; Some 1; Some 1; Some 1;
             Some (-1); Some (-1)]
  /\ Forall (fun x => x = Some 0 \/ x = Some 1)
            [Some 0; Some 0; Some 0; Some 0; Some 1; Some 1; Some 1;
             Some 1; Some 1].
Proof.
  assert (E : @VolatilityBreakoutStrategy.signals SqrtDown sample_strategy
                sample_prices
              = Ok [Some 0; Some 0; Some 0; Some 1; Some 1; Some 1; Some 1;
                    Some (-1); Some (-1)])
    by (vm_compute; reflexivity).
  assert (E' : @VolatilityBreakoutStrategy.signals SqrtDown
                 {| VolatilityBreakoutStrategy.lookback := 2;
                    VolatilityBreakoutStrategy.k := 1;
                    VolatilityBreakoutStrategy.hold := true;
                    VolatilityBreakoutStrategy.lag_signal := 1;
                    VolatilityBreakoutStrategy.long_only := true |}
                 sample_prices
               = Ok [Some 0; Some 0; Some 0; Some 0; Some 1; Some 1; Some 1;
                     Some 1; Some 1])
    by (vm_compute; reflexivity).
  split; [exact E |]. split.
  - exact (proj1 (proj1 (signals_range SqrtDown sample_strategy sample_prices)
                    _ E)).
  - exact (proj2 (proj1 (signals_range SqrtDown _ sample_prices) _ E') eq_refl).
Defined.

(** ** The engine's loop *)

Section Loop.
Import Broker Backtester.

Lemma market_order_spec (side : string) (qty : Z) (px : Q) (self : t) :
  (0 < qty)%Z ->
  (0 < px /\ market_order side qty px self
             = (Ok tt, append_trade side qty px (apply_side side qty px self)))
  \/ (px <= 0 /\ market_order side qty px self
                 = (Raise (ValueError "Price must be positive."), self)).
Proof.
  intros Hq. unfold market_order.
  destruct (Z.leb_spec qty 0); [lia |].
  destruct (Qle_bool px 0) eqn:Hp.
  - right. apply Qle_bool_iff in Hp. auto.
  - left. apply Qle_bool_gt in Hp. auto.
Qed.

Lemma trade_spec_holds (prev cur : option Q) (px : Q) (self : t) :
  trade_spec px self (trade prev cur px self).
Proof.
  unfold trade.
  destruct (Series.le prev (Some 0) && Series.gt cur (Some 0)).
  - unfold bind, get, lift, floordiv.
    destruct (Qeq_bool px 0) eqn:Hz.
    + apply trade_nothing. intros Hpx.
      rewrite (Qeq_bool_pos px Hpx) in Hz. discriminate.
    + destruct (Z.ltb_spec 0 (Qfloor (cash self / px))) as [Hq | Hq].
      * destruct (market_order_spec "buy" _ px self Hq) as [[Hpx E] | [Hpx E]];
          rewrite E.
        -- apply trade_buy; assumption.
        -- apply trade_nothing. intros Hpx'. exfalso.
           revert Hpx'. apply Qle_not_lt, Hpx.
      * apply trade_nothing. reflexivity.
  - destruct (Series.gt prev (Some 0) && Series.le cur (Some 0)).
    + unfold bind, get.
      destruct (Z.ltb_spec 0 (position self)) as [Hq | Hq].
      * destruct (market_order_spec "sell" _ px self Hq) as [[Hpx E] | [Hpx E]];
          rewrite E.
        -- apply trade_sell; assumption.
        -- apply trade_nothing. intros Hpx'. exfalso.
           revert Hpx'. apply Qle_not_lt, Hpx.
      * apply trade_nothing. reflexivity.
    + apply trade_nothing. reflexivity.
Qed.

Lemma trade_ok (prev cur : option Q) (px : Q) (self : t) :
  0 < px -> fst (trade prev cur px self) = Ok tt.
Proof.
  intros Hpx. destruct (trade_spec_holds prev cur px self); cbn; auto.
Qed.

Lemma step_missing (sig : Series.t) (st : loop_state) (dt : nat) (px : Q) (self : t) :
  nth_error sig dt = None ->
  step sig st (dt, px) self = (Raise (KeyError dt), self).
Proof.
  intros H. unfold step, bind, lift, loc. rewrite H. reflexivity.
Qed.

(** A pass that returns has added one point to the equity curve. *)
Lemma step_equity (sig : Series.t) (st st' : loop_state) (item : nat * Q)
      (self self' : t) :
  step sig st item self = (Ok st', self') ->
  equity_acc st' = equity_acc st ++ [(fst item, total_value (snd item) self')]
  /\ nth_error sig (fst item) = Some (prev_sig st').
Proof.
  destruct item as [dt px]. cbn [fst snd].
  destruct (nth_error sig dt) as [cur |] eqn:Hsig.
  - rewrite (step_unfold sig st dt px cur self Hsig).
    destruct (trade (prev_sig st) cur px self) as [[[] | e] s1]; [| discriminate].
    intros E. injection E as <- <-. cbn. auto.
  - rewrite (step_missing sig st dt px self Hsig). discriminate.
Qed.

Lemma step_ok (sig : Series.t) (st : loop_state) (dt : nat) (px : Q) (self : t) :
  0 < px -> (dt < length sig)%nat ->
  exists st' self', step sig st (dt, px) self = (Ok st', self').
Proof.
  intros Hpx Hdt.
  destruct (nth_error sig dt) as [cur |] eqn:Hsig.
  - rewrite (step_unfold sig st dt px cur self Hsig).
    pose proof (trade_ok (prev_sig st) cur px self Hpx) as Ht.
    destruct (trade (prev_sig st) cur px self) as [r s1]. cbn in Ht. subst r.
    eauto.
  - apply nth_error_None in Hsig. lia.
Qed.

Lemma loop_equity (sig : Series.t) (items : list (nat * Q)) :
  forall (st st' : loop_state) (self self' : t),
    loop sig st items self = (Ok st', self') ->
    map fst (equity_acc st') = map fst (equity_acc st) ++ map fst items.
Proof.
  induction items as [| item rest IH]; intros st st' self self' E.
  - cbn in E. injection E as <- <-. now rewrite app_nil_r.
  - cbn [loop] in E. unfold bind in E.
    destruct (step sig st item self) as [[st1 | e] s1] eqn:Hstep; [| discriminate].
    apply step_equity in Hstep. destruct Hstep as [Hacc _].
    rewrite (IH _ _ _ _ E), Hacc, map_app, <- app_assoc. reflexivity.
Qed.

Lemma loop_ok (sig : Series.t) (items : list (nat * Q)) :
  Forall (fun item => (fst item < length sig)%nat /\ 0 < snd item) items ->
  forall (st : loop_state) (self : t),
    exists st' self', loop sig st items self = (Ok st', self').
Proof.
  induction 1 as [| [dt px] rest [Hdt Hpx] _ IH]; intros st self.
  - cbn. unfold ret. eauto.
  - cbn [loop]. unfold bind. cbn [fst snd] in Hdt, Hpx.
    destruct (step_ok sig st dt px self Hpx Hdt) as (st1 & s1 & ->).
    apply IH.
Qed.

Lemma items_length (prices : list Q) : length (items prices) = length prices.
Proof.
  unfold items. rewrite length_combine, length_seq. lia.
Qed.

Lemma items_spec (prices : list Q) (n : nat) :
  (length prices <= n)%nat ->
  Forall (fun p => 0 < p) prices ->
  Forall (fun item => (fst item < n)%nat /\ 0 < snd item) (items prices).
Proof.
  intros Hn Hpos. apply Forall_forall. intros [dt px] Hin. cbn [fst snd].
  unfold items in Hin. split.
  - apply in_combine_l, in_seq in Hin. lia.
  - apply in_combine_r in Hin. rewrite Forall_forall in Hpos. auto.
Qed.

Lemma normalize_length (sig : Series.t) : length (normalize sig) = length sig.
Proof.
  unfold normalize. now rewrite clip_length, fillna_length.
Qed.

(** What [run_signals] returns when it returns. *)
Lemma run_signals_inv (sig : Series.t) (prices : list Q) (self self' : t)
      (res : run_result) :
  run_signals sig prices self = (Ok res, self') ->
  signals res = normalize sig
  /\ trades res = trade_log self'
  /\ length (equity res) = length prices
  /\ equity_index res = seq 0 (length prices)
  /\ exists st',
      loop (normalize sig) {| prev_sig := Some 0; equity_acc := [] |}
           (items prices) self = (Ok st', self')
      /\ equity res = map snd (equity_acc st').
Proof.
  unfold run_signals, bind, get, ret.
  destruct (loop (normalize sig) _ (items prices) self) as [[st' | e] s1] eqn:Hl;
    [| discriminate].
  intros E. injection E as <- <-. cbn.
  pose proof (loop_equity _ _ _ _ _ _ Hl) as Hidx. cbn in Hidx.
  split; [reflexivity |]. split; [reflexivity |].
  assert (Hfst : map fst (items prices) = seq 0 (length prices)).
  { unfold items. apply map_fst_zip, length_seq. }
  split.
  - rewrite length_map, <- (length_map fst), Hidx, length_map. apply items_length.
  - split; [congruence | eauto].
Qed.

Lemma run_signals_ok (sig : Series.t) (prices : list Q) (self : t) :
  (length prices <= length sig)%nat ->
  Forall (fun p => 0 < p) prices ->
  exists res self', run_signals sig prices self = (Ok res, self').
Proof.
  intros Hlen Hpos. unfold run_signals, bind, get, ret.
  rewrite <- normalize_length in Hlen.
  destruct (loop_ok (normalize sig) (items prices)
              (items_spec prices _ Hlen Hpos)
              {| prev_sig := Some 0; equity_acc := [] |} self)
    as (st' & s1 & ->).
  eauto.
Qed.

End Loop.


(** ** Normalisation *)

Lemma normalize_unit_interval (sig : Series.t) :
  Forall (valued (fun a => 0 <= a /\ a <= 1)) (Backtester.normalize sig).
Proof.
  unfold Backtester.normalize, Series.clip, Series.fillna.
  rewrite map_map. apply Forall_map, Forall_forall. intros x _.
  assert (H : forall a : Q,
             valued (fun a => 0 <= a /\ a <= 1)
               (if Qltb a 0 then Some 0 else if Qltb 1 a then Some 1 else Some a)).
  { intros a. destruct (Qltb a 0) eqn:H0; cbn.
    - split; [apply Qle_refl | discriminate].
    - destruct (Qltb 1 a) eqn:H1; cbn.
      + split; [discriminate | apply Qle_refl].
      + apply Qltb_ge in H0, H1. auto. }
  destruct x as [a |]; [apply H | apply (H 0)].
Qed.

Lemma normalize_missing (sig : Series.t) (i : nat) :
  nth_error sig i = Some None ->
  nth_error (Backtester.normalize sig) i = Some (Some 0).
Proof.
  intros H. unfold Backtester.normalize, Series.clip, Series.fillna.
  rewrite map_map, nth_error_map, H. reflexivity.
Qed.

Lemma run_inv {SQ : Sqrt} (strategy : VolatilityBreakoutStrategy.t)
      (prices : list Q) (self self' : Broker.t) (res : Backtester.run_result) :
  Backtester.run strategy prices self = (Ok res, self') ->
  exists sig,
    VolatilityBreakoutStrategy.signals strategy prices = Ok sig
    /\ Backtester.run_signals sig prices self = (Ok res, self').
Proof.
  unfold Backtester.run, Broker.bind, Broker.lift.
  destruct (VolatilityBreakoutStrategy.signals strategy prices) as [sig | e];
    [eauto | discriminate].
Qed.

(** C4.  Clipping invariant.  Normalisation sends every generator output,
    whatever its values, to a Series whose values all lie in [[0, 1]], a
    missing value becoming 0; and the exposure curve [run] returns is the
    normalised output of the generator, so each of its values lies in
    [[0, 1]] for every price sequence and every configuration. *)
Theorem clipping_invariant :
  (forall sig : Series.t,
      Forall (fun x => exists a, x = Some a /\ 0 <= a /\ a <= 1)
             (Backtester.normalize sig))
  /\ (forall (sig : Series.t) (i : nat),
         nth_error sig i = Some None ->
         nth_error (Backtester.normalize sig) i = Some (Some 0))
  /\ (forall (SQ : Sqrt) (strategy : VolatilityBreakoutStrategy.t)
             (prices : list Q) (self self' : Broker.t)
             (res : Backtester.run_result),
         Backtester.run strategy prices self = (Ok res, self') ->
         Forall (fun x => exists a, x = Some a /\ 0 <= a /\ a <= 1)
                (Backtester.signals res)).
Proof.
  assert (H : forall sig : Series.t,
             Forall (fun x => exists a, x = Some a /\ 0 <= a /\ a <= 1)
                    (Backtester.normalize sig)).
  { intros sig. generalize (normalize_unit_interval sig).
    apply Forall_impl. intros [a |]; cbn; [eauto | tauto]. }
  split; [exact H |]. split; [exact normalize_missing |].
  intros SQ strategy prices self self' res E.
  apply run_inv in E. destruct E as (sig & _ & E).
  apply run_signals_inv in E. destruct E as (-> & _). apply H.
Qed.

Lemma clipping_invariant_witness :
  exists (res : Backtester.run_result) (self' : Broker.t),
    @VolatilityBreakoutStrategy.signals SqrtDown sample_strategy sample_prices
    = Ok [Some 0; Some 0; Some 0; Some 1; Some 1; Some 1; Some 1;
          Some (-1); Some (-1)]
    /\ @Backtester.run SqrtDown sample_strategy sample_prices (Broker.init 1000)
       = (Ok res, self')
    /\ Backtester.signals res
       = [Some 0; Some 0; Some 0; Some 1; Some 1; Some 1; Some 1; Some 0; Some 0]
    /\ Forall (fun x => exists a, x = Some a /\ 0 <= a /\ a <= 1)
              (Backtester.signals res).
Proof.
  eexists. eexists.
  split; [vm_compute; reflexivity |].
  match goal with
  | |- ?run = _ /\ _ =>
      let v := eval vm_compute in run in
      assert (Hrun : run = v) by (vm_compute; reflexivity)
  end.
  split; [exact Hrun |].
  split; [reflexivity |].
  exact (proj2 (proj2 clipping_invariant) SqrtDown sample_strategy sample_prices
           _ _ _ Hrun).
Defined.

(** C7.  Length invariant and empty-input law.  Whenever [run] returns,
    the equity curve and the exposure curve are as long as the price
    sequence, the equity curve carrying the labels of the prices; [run]
    does return for positive prices and a non-negative look-back; and on
    the empty sequence it returns three empty outputs from a fresh ledger
    and leaves any ledger exactly as it was. *)
Theorem length_invariant :
  forall (SQ : Sqrt) (strategy : VolatilityBreakoutStrategy.t)
         (prices : list Q) (self : Broker.t),
    (forall (res : Backtester.run_result) (self' : Broker.t),
        Backtester.run strategy prices self = (Ok res, self') ->
        length (Backtester.equity res) = length prices
        /\ length (Backtester.signals res) = length prices
        /\ Backtester.equity_index res = seq 0 (length prices))
    /\ ((0 <= VolatilityBreakoutStrategy.lookback strategy)%Z ->
        Forall (fun p => 0 < p) prices ->
        exists (res : Backtester.run_result) (self' : Broker.t),
          Backtester.run strategy prices self = (Ok res, self'))
    /\ ((0 <= VolatilityBreakoutStrategy.lookback strategy)%Z ->
        Backtester.run strategy [] self
        = (Ok {| Backtester.equity_index := []; Backtester.equity := [];
                 Backtester.signals := [];
                 Backtester.trades := Broker.trade_log self |}, self)
        /\ forall cash0 : Q,
            Backtester.run strategy [] (Broker.init cash0)
            = (Ok {| Backtester.equity_index := []; Backtester.equity := [];
                     Backtester.signals := []; Backtester.trades := [] |},
               Broker.init cash0)).
Proof.
  intros SQ strategy prices self. split; [| split].
  - intros res self' E. apply run_inv in E. destruct E as (sig & Hsig & E).
    apply run_signals_inv in E. destruct E as (Hs & _ & He & Hi & _).
    split; [exact He |]. split; [| exact Hi].
    rewrite Hs, normalize_length. apply (signals_length _ _ _ Hsig).
  - intros Hlb Hpos.
    destruct (signals_ok strategy prices Hlb) as (v & _ & Hsig).
    unfold Backtester.run, Broker.bind, Broker.lift. rewrite Hsig.
    apply run_signals_ok; [| exact Hpos].
    apply signals_length in Hsig. lia.
  - intros Hlb.
    assert (E : forall s : Broker.t,
               Backtester.run strategy [] s
               = (Ok {| Backtester.equity_index := []; Backtester.equity := [];
                        Backtester.signals := [];
                        Backtester.trades := Broker.trade_log s |}, s)).
    { intros s. unfold Backtester.run, Broker.bind, Broker.lift.
      destruct (VolatilityBreakoutStrategy.signals strategy []) as [sig | e] eqn:Hsig.
      - apply signals_length in Hsig. destruct sig; [reflexivity | discriminate].
      - destruct (signals_ok strategy [] Hlb) as (v & _ & Hok). congruence. }
    split; [apply E | intros cash0; apply E].
Qed.

Lemma length_invariant_witness :
  exists (res : Backtester.run_result) (self' : Broker.t),
    @Backtester.run SqrtDown sample_strategy sample_prices (Broker.init 1000)
    = (Ok res, self')
    /\ length (Backtester.equity res) = 9%nat
    /\ length (Backtester.signals res) = 9%nat.
Proof.
  assert (Hlb : (0 <= VolatilityBreakoutStrategy.lookback sample_strategy)%Z)
    by (cbn; lia).
  assert (Hpos : Forall (fun p => 0 < p) sample_prices)
    by (repeat constructor).
  destruct (length_invariant SqrtDown sample_strategy sample_prices
              (Broker.init 1000)) as (Hlen & Hret & _).
  destruct (Hret Hlb Hpos) as (res & self' & E).
  exists res, self'. split; [exact E |].
  destruct (Hlen res self' E) as (He & Hs & _). auto.
Defined.

(** ** The ledger a run leaves *)

Lemma run_signals_state (sig : Series.t) (prices : list Q) (self : Broker.t) :
  snd (Backtester.run_signals sig prices self)
  = snd (Backtester.loop (Backtester.normalize sig)
           {| Backtester.prev_sig := Some 0; Backtester.equity_acc := [] |}
           (Backtester.items prices) self).
Proof.
  unfold Backtester.run_signals, Broker.bind, Broker.get, Broker.ret.
  destruct (Backtester.loop _ _ _ self) as [[st' | e] s1]; reflexivity.
Qed.

(** ** Lag *)

Lemma fillna_valued_id (v : Q) (s : Series.t) :
  Forall (valued (fun _ => True)) s -> Series.fillna v s = s.
Proof.
  induction 1 as [| [a |] s Hx Hs IH]; cbn in *; [reflexivity | | tauto].
  f_equal. exact IH.
Qed.

Lemma fillna_shift (n : nat) (s : Series.t) :
  Forall (valued (fun _ => True)) s ->
  Series.fillna 0 (Series.shift n s)
  = firstn (length s) (repeat (Some 0) n ++ s).
Proof.
  intros Hs. unfold Series.shift.
  change (Series.fillna 0) with
    (map (fun x : option Q => match x with Some a => Some a | None => Some 0 end)).
  rewrite <- firstn_map, map_app, map_repeat. f_equal. f_equal.
  apply (fillna_valued_id 0 s Hs).
Qed.

Lemma nth_error_shifted (n : nat) (s : Series.t) (i : nat) :
  (i < length s)%nat ->
  nth_error (firstn (length s) (repeat (Some 0) n ++ s)) i
  = if (i <? n)%nat then Some (Some 0) else nth_error s (i - n).
Proof.
  intros Hi. rewrite nth_error_firstn.
  destruct (Nat.ltb_spec i (length s)); [| lia].
  rewrite nth_error_app, repeat_length.
  destruct (Nat.ltb_spec i n); [| reflexivity].
  now apply nth_error_repeat.
Qed.

(** C5.  Lag-shift law.  For a fixed raw-signal configuration, if the
    generator returns [s0] with lag 0 then with a lag [L > 0] it returns
    [L] zeros followed by [s0], cut to the length of [s0]: the value at
    place [t] is 0 for [t < L] and the value of [s0] at [t - L] from
    there on. *)
Theorem lag_shift_law :
  forall (SQ : Sqrt) (self : VolatilityBreakoutStrategy.t) (prices : list Q)
         (L : Z) (s0 : Series.t),
    (0 < L)%Z ->
    VolatilityBreakoutStrategy.signals (with_lag self 0) prices = Ok s0 ->
    exists sL : Series.t,
      VolatilityBreakoutStrategy.signals (with_lag self L) prices = Ok sL
      /\ sL = firstn (length s0) (repeat (Some 0) (Z.to_nat L) ++ s0)
      /\ length sL = length s0
      /\ forall t : nat,
          (t < length s0)%nat ->
          nth_error sL t
          = if (t <? Z.to_nat L)%nat then Some (Some 0)
            else nth_error s0 (t - Z.to_nat L).
Proof.
  intros SQ self prices L s0 HL E0.
  apply signals_inv in E0. destruct E0 as (Hlb & v & Hv & Hs0).
  destruct (signals_ok (with_lag self L) prices Hlb) as (v' & Hv' & EL).
  change (VolatilityBreakoutStrategy.vol (with_lag self L) prices)
    with (VolatilityBreakoutStrategy.vol (with_lag self 0) prices) in Hv'.
  assert (v' = v) by congruence. subst v'.
  unfold VolatilityBreakoutStrategy.lagged in Hs0, EL. cbn [with_lag VolatilityBreakoutStrategy.lag_signal] in Hs0, EL.
  destruct (Z.ltb_spec 0 L); [| lia]. cbn [Z.ltb Z.compare] in Hs0.
  assert (Hval : Forall (valued (fun _ => True)) s0).
  { rewrite Hs0. apply held_valued, raw_valued; auto. }
  exists (firstn (length s0) (repeat (Some 0) (Z.to_nat L) ++ s0)).
  split; [| split; [reflexivity | split]].
  - rewrite EL, <- (fillna_shift _ s0 Hval), Hs0. reflexivity.
  - rewrite length_firstn, length_app. lia.
  - intros t Ht. apply nth_error_shifted, Ht.
Qed.

Lemma lag_shift_law_witness :
  (0 < 2)%Z
  /\ @VolatilityBreakoutStrategy.signals SqrtDown (with_lag sample_strategy 0)
       sample_prices
     = Ok [Some 0; Some 0; Some 0; Some 1; Some 1; Some 1; Some 1;
           Some (-1); Some (-1)]
  /\ exists sL : Series.t,
      @VolatilityBreakoutStrategy.signals SqrtDown (with_lag sample_strategy 2)
        sample_prices = Ok sL
      /\ sL = [Some 0; Some 0; Some 0; Some 0; Some 0; Some 1; Some 1;
               Some 1; Some 1].
Proof.
  assert (E0 : @VolatilityBreakoutStrategy.signals SqrtDown
                 (with_lag sample_strategy 0) sample_prices
               = Ok [Some 0; Some 0; Some 0; Some 1; Some 1; Some 1; Some 1;
                     Some (-1); Some (-1)])
    by (vm_compute; reflexivity).
  split; [lia |]. split; [exact E0 |].
  destruct (lag_shift_law SqrtDown sample_strategy sample_prices 2 _
              ltac:(lia) E0) as (sL & EL & Hs & _).
  exists sL. split; [exact EL | exact Hs].
Defined.

(** ** Constant prices *)

Section ConstantPrices.
Import Series.

Lemma Forall_suffix {A} (P : A -> Prop) (n : nat) (l : list A) :
  Forall P l -> Forall P (skipn n l).
Proof.
  intros H. revert n. induction H as [| x l Hx Hl IH]; intros [| n]; cbn; auto.
Qed.

Lemma zip_with_Forall {A B C} (PA : A -> Prop) (PB : B -> Prop) (R : C -> Prop)
      (f : A -> B -> C) (xs : list A) (ys : list B) :
  (forall x y, PA x -> PB y -> R (f x y)) ->
  Forall PA xs -> Forall PB ys -> Forall R (zip_with f xs ys).
Proof.
  intros Hf Hxs. revert ys.
  induction Hxs as [| x xs Hx Hxs IH]; intros ys Hys; [constructor |].
  destruct Hys as [| y ys Hy Hys]; cbn; [constructor |].
  constructor; auto.
Qed.

Lemma observations_Forall (P : Q -> Prop) (s : t) :
  Forall (present P) s -> Forall P (observations s).
Proof.
  induction 1 as [| [a |] s Hx Hs IH]; cbn; auto.
Qed.

Lemma total_zero (xs : list Q) : Forall (fun x => x == 0) xs -> total xs == 0.
Proof.
  induction 1 as [| x xs Hx Hxs IH]; cbn; [reflexivity |].
  rewrite Hx, IH. reflexivity.
Qed.

Lemma var_zero (xs : list Q) : Forall (fun x => x == 0) xs -> var xs == 0.
Proof.
  intros H. unfold var.
  assert (Hm : mean xs == 0).
  { unfold mean, Qdiv. rewrite (total_zero xs H). apply Qmult_0_l. }
  assert (Hsq : total (map (fun x => (x - mean xs) * (x - mean xs)) xs) == 0).
  { apply total_zero, Forall_map. revert H. apply Forall_impl.
    intros x Hx. rewrite Hx, Hm. reflexivity. }
  unfold Qdiv. rewrite Hsq. apply Qmult_0_l.
Qed.

Context {SQ : Sqrt} {SZ : SqrtZero SQ}.

Lemma std_of_zero (m : nat) (win : t) :
  Forall (present (fun a => a == 0)) win ->
  present (fun a => a == 0) (std_of m win).
Proof.
  intros H. unfold std_of.
  destruct ((Nat.max m 1 <=? length (observations win))%nat
            && (1 <? length (observations win))%nat); cbn; [| exact I].
  apply sqrt_zero, var_zero, observations_Forall, H.
Qed.

Lemma pct_change_constant (p : Q) (n : nat) :
  0 < p ->
  Forall (present (fun a => a == 0)) (pct_change (map Some (repeat p n))).
Proof.
  intros Hp. unfold pct_change.
  apply (zip_with_Forall (fun x => x = Some p) (present (fun a => a = p))).
  - intros x [y |] -> Hy; cbn in *; [| exact I]. subst y.
    rewrite (Qeq_bool_pos p Hp). cbn.
    assert (Hne : ~ p == 0)
      by (intros E; rewrite E in Hp; revert Hp; apply Qlt_irrefl).
    field. exact Hne.
  - apply Forall_map, Forall_forall. intros x Hx.
    apply repeat_spec in Hx. now subst.
  - apply shift_present, Forall_map, Forall_forall. intros x Hx.
    apply repeat_spec in Hx. now subst.
Qed.

(** On a constant positive price the volatility is 0 wherever defined. *)
Lemma vol_constant (self : VolatilityBreakoutStrategy.t) (p : Q) (n : nat)
      (v : t) :
  0 < p ->
  VolatilityBreakoutStrategy.vol self (repeat p n) = Ok v ->
  Forall (present (fun a => a == 0)) v.
Proof.
  intros Hp E. unfold VolatilityBreakoutStrategy.vol, rolling_std in E.
  destruct (VolatilityBreakoutStrategy.lookback self <? 0)%Z; [discriminate |].
  destruct (VolatilityBreakoutStrategy.lookback self
            <? VolatilityBreakoutStrategy.lookback self)%Z; [discriminate |].
  cbv [bind_result] in E. injection E as <-.
  apply shift_present, Forall_map, Forall_forall. intros i _.
  apply std_of_zero. unfold window.
  apply Forall_suffix, Forall_prefix, pct_change_constant, Hp.
Qed.

Lemma set_where_false (mask : list bool) (v : Q) (s : t) :
  Forall (fun m => m = false) mask -> length mask = length s ->
  set_where mask v s = s.
Proof.
  intros Hm. revert s. unfold set_where.
  induction Hm as [| m mask -> Hm IH]; intros [| x s] Hlen; cbn in *;
    try discriminate; [reflexivity |].
  f_equal. apply IH. lia.
Qed.

Lemma band_constant (f : Q -> Q -> Q) (kk p : Q) (prev v : t) :
  (forall z, z == 0 -> f 1 (kk * z) == 1) ->
  Forall (present (fun a => a = p)) prev ->
  Forall (present (fun a => a == 0)) v ->
  Forall (present (fun a => a == p))
         (zip_with (fun q w => lift2 Qmult q (lift2 f (Some 1) (lift2 Qmult (Some kk) w)))
                   prev v).
Proof.
  intros Hf. apply zip_with_Forall.
  intros [q |] [w |] Hq Hw; cbn in *; auto.
  subst q. rewrite (Hf w Hw). apply Qmult_1_r.
Qed.

Lemma gt_constant (p : Q) (ps band : t) :
  Forall (fun x => x = Some p) ps ->
  Forall (present (fun a => a == p)) band ->
  Forall (fun m => m = false) (zip_with gt ps band)
  /\ Forall (fun m => m = false) (zip_with lt ps band).
Proof.
  intros Hps Hband. split.
  - apply (zip_with_Forall (fun x => x = Some p) (present (fun a => a == p)));
      auto.
    intros x [b |] -> Hb; cbn in *; [| reflexivity].
    apply Qltb_ge. rewrite Hb. apply Qle_refl.
  - apply (zip_with_Forall (fun x => x = Some p) (present (fun a => a == p)));
      auto.
    intros x [b |] -> Hb; cbn in *; [| reflexivity].
    apply Qltb_ge. rewrite Hb. apply Qle_refl.
Qed.

(** On a constant positive price the raw signal is 0 at every step. *)
Lemma raw_constant (self : VolatilityBreakoutStrategy.t) (p : Q) (n : nat)
      (v : t) :
  length v = n ->
  Forall (present (fun a => a == 0)) v ->
  VolatilityBreakoutStrategy.raw self (map Some (repeat p n))
    (VolatilityBreakoutStrategy.up_band self (shift 1 (map Some (repeat p n))) v)
    (VolatilityBreakoutStrategy.dn_band self (shift 1 (map Some (repeat p n))) v)
  = repeat (Some 0) n.
Proof.
  intros Hlen Hv.
  assert (Hps : Forall (fun x => x = Some p) (map Some (repeat p n))).
  { apply Forall_map, Forall_forall. intros x Hx.
    apply repeat_spec in Hx. now subst. }
  assert (Hprev : Forall (present (fun a => a = p))
                         (shift 1 (map Some (repeat p n)))).
  { apply shift_present. revert Hps. apply Forall_impl. now intros x ->. }
  assert (Hn : length (map Some (repeat p n)) = n)
    by now rewrite length_map, repeat_length.
  unfold VolatilityBreakoutStrategy.raw. rewrite Hn.
  assert (Hup : Forall (present (fun a => a == p))
                  (VolatilityBreakoutStrategy.up_band self
                     (shift 1 (map Some (repeat p n))) v)).
  { apply band_constant; auto. intros z Hz. rewrite Hz. ring. }
  assert (Hdn : Forall (present (fun a => a == p))
                  (VolatilityBreakoutStrategy.dn_band self
                     (shift 1 (map Some (repeat p n))) v)).
  { apply band_constant; auto. intros z Hz. rewrite Hz. ring. }
  assert (H1 : set_where (zip_with gt (map Some (repeat p n))
                 (VolatilityBreakoutStrategy.up_band self
                    (shift 1 (map Some (repeat p n))) v)) 1
                 (repeat (Some 0) n) = repeat (Some 0) n).
  { apply set_where_false; [apply (gt_constant p); assumption |].
    unfold VolatilityBreakoutStrategy.up_band.
    rewrite !zip_with_length, shift_length, Hn, Hlen, repeat_length. lia. }
  rewrite H1. destruct (negb (VolatilityBreakoutStrategy.long_only self));
    [| reflexivity].
  apply set_where_false; [apply (gt_constant p); assumption |].
  unfold VolatilityBreakoutStrategy.dn_band.
  rewrite !zip_with_length, shift_length, Hn, Hlen, repeat_length. lia.
Qed.

End ConstantPrices.

Section FlatRun.
Import Series.

Lemma held_zero (self : VolatilityBreakoutStrategy.t) (n : nat) :
  VolatilityBreakoutStrategy.held self (repeat (Some 0) n) = repeat (Some 0) n.
Proof.
  unfold VolatilityBreakoutStrategy.held.
  destruct (VolatilityBreakoutStrategy.hold self); [| reflexivity].
  unfold ffill. induction n as [| n IH]; cbn in *; [reflexivity |].
  f_equal. exact IH.
Qed.

Lemma firstn_repeat {A} (a : A) (n m : nat) :
  firstn n (repeat a (m + n)) = repeat a n.
Proof.
  induction n as [| n IH]; cbn; [reflexivity |].
  rewrite Nat.add_succ_r. cbn. f_equal. exact IH.
Qed.

Lemma lagged_zero (self : VolatilityBreakoutStrategy.t) (n : nat) :
  VolatilityBreakoutStrategy.lagged self (repeat (Some 0) n) = repeat (Some 0) n.
Proof.
  unfold VolatilityBreakoutStrategy.lagged.
  destruct (0 <? VolatilityBreakoutStrategy.lag_signal self)%Z; [| reflexivity].
  rewrite fillna_shift.
  - rewrite repeat_length, <- repeat_app. apply firstn_repeat.
  - apply repeat_valued. exact I.
Qed.

Lemma normalize_zero (n : nat) :
  Backtester.normalize (repeat (Some 0) n) = repeat (Some 0) n.
Proof.
  unfold Backtester.normalize, clip, fillna. rewrite !map_repeat. reflexivity.
Qed.

(** With the signal at 0 throughout, the loop places no order and marks
    the untouched ledger to market at every price. *)
Lemma loop_flat (sig : t) (items : list (nat * Q)) :
  Forall (fun item => nth_error sig (fst item) = Some (Some 0)) items ->
  forall (acc : list (nat * Q)) (self : Broker.t),
    Backtester.loop sig
      {| Backtester.prev_sig := Some 0; Backtester.equity_acc := acc |}
      items self
    = (Ok {| Backtester.prev_sig := Some 0;
             Backtester.equity_acc :=
               acc ++ map (fun item => (fst item,
                                        Broker.total_value (snd item) self))
                          items |},
       self).
Proof.
  induction 1 as [| [dt px] rest Hsig _ IH]; intros acc self.
  - cbn. now rewrite app_nil_r.
  - cbn [Backtester.loop]. unfold Broker.bind. cbn [fst] in Hsig.
    rewrite (step_unfold sig _ dt px _ self Hsig).
    cbn [Backtester.prev_sig Backtester.equity_acc].
    change (Backtester.trade (Some 0) (Some 0) px self) with (Ok tt, self).
    cbv beta iota. rewrite IH, <- app_assoc. reflexivity.
Qed.

Lemma items_flat (prices : list Q) :
  Forall (fun item =>
            nth_error (repeat (Some (0 : Q)) (length prices)) (fst item)
            = Some (Some 0))
         (Backtester.items prices).
Proof.
  apply Forall_forall. intros [dt px] Hin. cbn [fst].
  unfold Backtester.items in Hin. apply in_combine_l, in_seq in Hin.
  apply nth_error_repeat. lia.
Qed.

Lemma run_signals_flat (prices : list Q) (self : Broker.t) :
  Backtester.run_signals (repeat (Some 0) (length prices)) prices self
  = (Ok {| Backtester.equity_index := seq 0 (length prices);
           Backtester.equity := map (fun px => Broker.total_value px self) prices;
           Backtester.signals := repeat (Some 0) (length prices);
           Backtester.trades := Broker.trade_log self |},
     self).
Proof.
  unfold Backtester.run_signals, Broker.bind, Broker.get, Broker.ret.
  rewrite normalize_zero, (loop_flat _ _ (items_flat prices)).
  cbn [Backtester.equity_acc app]. rewrite !map_map. cbn [fst snd].
  assert (E1 : map (fun x : nat * Q => fst x) (Backtester.items prices)
               = seq 0 (length prices))
    by (unfold Backtester.items; apply map_fst_zip, length_seq).
  assert (E2 : map (fun x : nat * Q => Broker.total_value (snd x) self)
                   (Backtester.items prices)
               = map (fun px => Broker.total_value px self) prices).
  { clear E1. unfold Backtester.items. generalize 0%nat.
    induction prices as [| px prices IH]; intros s;
      cbn [combine map seq snd length]; [reflexivity |].
    now rewrite IH. }
  rewrite E1, E2. reflexivity.
Qed.

Context {SQ : Sqrt} {SZ : SqrtZero SQ}.

Lemma signals_constant (self : VolatilityBreakoutStrategy.t) (p : Q) (n : nat) :
  0 < p -> (0 <= VolatilityBreakoutStrategy.lookback self)%Z ->
  VolatilityBreakoutStrategy.signals self (repeat p n) = Ok (repeat (Some 0) n).
Proof.
  intros Hp Hlb.
  destruct (signals_ok self (repeat p n) Hlb) as (v & Hv & ->).
  pose proof (vol_length _ _ _ Hv) as Hlen. rewrite repeat_length in Hlen.
  rewrite (raw_constant self p n v Hlen (vol_constant self p n v Hp Hv)).
  now rewrite held_zero, lagged_zero.
Qed.

End FlatRun.

Lemma SqrtDown_zero : SqrtZero SqrtDown.
Proof.
  intros x Hx. cbn. unfold sqrt_down.
  assert (E : x * inject_Z (10 ^ 20) == 0) by (rewrite Hx; apply Qmult_0_l).
  rewrite E. reflexivity.
Qed.

(** C6.  Constant-price idempotence.  On a sequence of equal positive
    prices (of any length, so also of length at least [lookback + 1]),
    with a non-negative look-back: the volatility is 0 wherever it is
    defined, the raw signal is 0 at every step, and the run from a fresh
    ledger returns, records no trade, leaves the ledger as it was and
    gives an equity curve whose every point equals the initial cash. *)
Theorem constant_price_idempotence :
  forall (SQ : Sqrt) (SZ : SqrtZero SQ) (self : VolatilityBreakoutStrategy.t)
         (p : Q) (n : nat) (cash0 : Q),
    0 < p ->
    (0 <= VolatilityBreakoutStrategy.lookback self)%Z ->
    (exists v : Series.t,
        VolatilityBreakoutStrategy.vol self (repeat p n) = Ok v
        /\ (forall (t : nat) (a : Q), nth_error v t = Some (Some a) -> a == 0)
        /\ VolatilityBreakoutStrategy.raw self (map Some (repeat p n))
             (VolatilityBreakoutStrategy.up_band self
                (Series.shift 1 (map Some (repeat p n))) v)
             (VolatilityBreakoutStrategy.dn_band self
                (Series.shift 1 (map Some (repeat p n))) v)
           = repeat (Some 0) n)
    /\ (exists res : Backtester.run_result,
           Backtester.run self (repeat p n) (Broker.init cash0)
           = (Ok res, Broker.init cash0)
           /\ Backtester.trades res = []
           /\ length (Backtester.equity res) = n
           /\ Forall (fun e => e == cash0) (Backtester.equity res)).
Proof.
  intros SQ SZ self p n cash0 Hp Hlb. split.
  - destruct (signals_ok self (repeat p n) Hlb) as (v & Hv & _).
    exists v. split; [exact Hv |].
    pose proof (vol_constant self p n v Hp Hv) as Hz.
    split.
    + intros t a Ht. rewrite Forall_forall in Hz.
      apply (Hz (Some a)). eapply nth_error_In, Ht.
    + apply raw_constant; [| exact Hz].
      apply vol_length in Hv. now rewrite repeat_length in Hv.
  - unfold Backtester.run, Broker.bind, Broker.lift.
    rewrite (signals_constant self p n Hp Hlb).
    pose proof (run_signals_flat (repeat p n) (Broker.init cash0)) as E.
    rewrite repeat_length in E. rewrite E.
    eexists. split; [reflexivity |].
    cbn [Backtester.trades Backtester.equity Broker.trade_log Broker.init].
    split; [reflexivity |]. split.
    + now rewrite length_map, repeat_length.
    + apply Forall_map, Forall_forall. intros px _.
      unfold Broker.total_value. cbn [Broker.cash Broker.position Broker.init].
      change (inject_Z 0) with 0. ring.
Qed.

(** The example of the specification: look-back 20, [k = 1.5], 200 prices
    of 100, one million in cash. *)
Lemma constant_price_idempotence_witness :
  0 < 100 /\ (0 <= 20)%Z
  /\ exists res : Backtester.run_result,
      @Backtester.run SqrtDown
        {| VolatilityBreakoutStrategy.lookback := 20;
           VolatilityBreakoutStrategy.k := 1.5;
           VolatilityBreakoutStrategy.hold := true;
           VolatilityBreakoutStrategy.lag_signal := 1;
           VolatilityBreakoutStrategy.long_only := true |}
        (repeat 100 200) (Broker.init 1000000)
      = (Ok res, Broker.init 1000000)
      /\ Backtester.trades res = []
      /\ length (Backtester.equity res) = 200%nat
      /\ Forall (fun e => e == 1000000) (Backtester.equity res).
Proof.
  split; [reflexivity |]. split; [lia |].
  exact (proj2 (constant_price_idempotence SqrtDown SqrtDown_zero
                  {| VolatilityBreakoutStrategy.lookback := 20;
                     VolatilityBreakoutStrategy.k := 1.5;
                     VolatilityBreakoutStrategy.hold := true;
                     VolatilityBreakoutStrategy.lag_signal := 1;
                     VolatilityBreakoutStrategy.long_only := true |}
                  100 200 1000000 eq_refl ltac:(cbn; lia))).
Defined.

(** ** Construction *)

(** C8 as stated fails: a generator built with a negative look-back, a
    negative [k] and a negative lag is returned without any error. *)
Lemma construction_unchecked_counterexample :
  VolatilityBreakoutStrategy.init (-5) (-2) true (-1) true
  = Ok {| VolatilityBreakoutStrategy.lookback := -5;
          VolatilityBreakoutStrategy.k := -2;
          VolatilityBreakoutStrategy.hold := true;
          VolatilityBreakoutStrategy.lag_signal := -1;
          VolatilityBreakoutStrategy.long_only := true |}.
Proof. reflexivity. Qed.

(** C8, amended.  Construction raises nothing, whatever the parameters:
    they are stored as given.  A negative look-back is reported only by
    [signals], which then raises a [ValueError] for every price
    sequence; with a non-negative look-back [signals] returns, whatever
    the sign of [k] and of the lag. *)
Theorem construction_unchecked :
  forall (lookback : Z) (k : Q) (hold : bool) (lag_signal : Z) (long_only : bool),
    let self :=
      {| VolatilityBreakoutStrategy.lookback := lookback;
         VolatilityBreakoutStrategy.k := k;
         VolatilityBreakoutStrategy.hold := hold;
         VolatilityBreakoutStrategy.lag_signal := lag_signal;
         VolatilityBreakoutStrategy.long_only := long_only |} in
    VolatilityBreakoutStrategy.init lookback k hold lag_signal long_only = Ok self
    /\ forall (SQ : Sqrt) (prices : list Q),
        ((lookback < 0)%Z ->
         VolatilityBreakoutStrategy.signals self prices
         = Raise (ValueError "min_periods must be >= 0"))
        /\ ((0 <= lookback)%Z ->
            exists sig : Series.t,
              VolatilityBreakoutStrategy.signals self prices = Ok sig).
Proof.
  intros lookback k hold lag_signal long_only self.
  split; [reflexivity |]. intros SQ prices. split.
  - intros H. apply signals_raise. exact H.
  - intros H. destruct (signals_ok self prices H) as (v & _ & E). eauto.
Qed.

Lemma construction_unchecked_witness :
  (-5 < 0)%Z
  /\ @VolatilityBreakoutStrategy.signals SqrtDown
       {| VolatilityBreakoutStrategy.lookback := -5;
          VolatilityBreakoutStrategy.k := -2;
          VolatilityBreakoutStrategy.hold := true;
          VolatilityBreakoutStrategy.lag_signal := -1;
          VolatilityBreakoutStrategy.long_only := true |} sample_prices
     = Raise (ValueError "min_periods must be >= 0")
  /\ (0 <= 2)%Z
  /\ exists sig : Series.t,
      @VolatilityBreakoutStrategy.signals SqrtDown
        {| VolatilityBreakoutStrategy.lookback := 2;
           VolatilityBreakoutStrategy.k := -2;
           VolatilityBreakoutStrategy.hold := true;
           VolatilityBreakoutStrategy.lag_signal := -1;
           VolatilityBreakoutStrategy.long_only := true |} sample_prices
      = Ok sig.
Proof.
  split; [lia |]. split.
  - exact (proj1 (proj2 (construction_unchecked (-5) (-2) true (-1) true)
                    SqrtDown sample_prices) ltac:(lia)).
  - split; [lia |].
    exact (proj2 (proj2 (construction_unchecked 2 (-2) true (-1) true)
                    SqrtDown sample_prices) ltac:(lia)).
Defined.

(** * Further properties of the ledger *)

Lemma lower_ascii_idem (c : ascii) : lower_ascii (lower_ascii c) = lower_ascii c.
Proof.
  destruct c as [[] [] [] [] [] [] [] []]; reflexivity.
Qed.

Lemma lower_idem (s : string) : lower (lower s) = lower s.
Proof.
  induction s as [| c s IH]; cbn; [reflexivity |].
  now rewrite lower_ascii_idem, IH.
Qed.

Lemma apply_side_value (side : string) (qty : Z) (price : Q) (self : Broker.t) :
  Broker.total_value price (Broker.apply_side side qty price self)
  == Broker.total_value price self.
Proof.
  unfold Broker.apply_side, Broker.total_value.
  destruct (String.eqb (lower side) "buy");
    [| destruct (String.eqb (lower side) "sell")];
    cbn [Broker.cash Broker.position].
  - rewrite inject_Z_plus. ring.
  - unfold Z.sub. rewrite inject_Z_plus, inject_Z_opp. ring.
  - reflexivity.
Qed.

(** X1.  The checks of [market_order], in their order: a quantity [<= 0]
    raises "Quantity must be positive." whatever the price and the side;
    otherwise a price [<= 0] raises "Price must be positive."; otherwise
    the order goes through, whatever the side.  Every raise hands the
    ledger back as it was. *)
Theorem market_order_checks :
  forall (side : string) (qty : Z) (price : Q) (self : Broker.t),
    ((qty <= 0)%Z ->
     Broker.market_order side qty price self
     = (Raise (ValueError "Quantity must be positive."), self))
    /\ ((0 < qty)%Z -> price <= 0 ->
        Broker.market_order side qty price self
        = (Raise (ValueError "Price must be positive."), self))
    /\ ((0 < qty)%Z -> 0 < price ->
        fst (Broker.market_order side qty price self) = Ok tt).
Proof.
  intros side qty price self. unfold Broker.market_order. repeat split.
  - intros Hq. destruct (Z.leb_spec qty 0); [reflexivity | lia].
  - intros Hq Hp. destruct (Z.leb_spec qty 0); [lia |].
    apply Qle_bool_iff in Hp. now rewrite Hp.
  - intros Hq Hp. destruct (Z.leb_spec qty 0); [lia |].
    apply Qle_bool_gt in Hp. now rewrite Hp.
Qed.

Lemma market_order_checks_witness :
  (0 <= 0)%Z /\ (0 < 3)%Z /\ -2 <= 0 /\ 0 < 7
  /\ Broker.market_order "buy" 0 (-2) (Broker.init 50)
     = (Raise (ValueError "Quantity must be positive."), Broker.init 50)
  /\ Broker.market_order "sell" 3 (-2) (Broker.init 50)
     = (Raise (ValueError "Price must be positive."), Broker.init 50)
  /\ fst (Broker.market_order "sell" 3 7 (Broker.init 50)) = Ok tt.
Proof.
  split; [lia |]. split; [lia |]. split; [discriminate |]. split; [reflexivity |].
  destruct (market_order_checks "buy" 0 (-2) (Broker.init 50)) as (H1 & _).
  destruct (market_order_checks "sell" 3 (-2) (Broker.init 50)) as (_ & H2 & _).
  destruct (market_order_checks "sell" 3 7 (Broker.init 50)) as (_ & _ & H3).
  split; [apply H1; lia |].
  split; [apply H2; [lia | discriminate] |].
  apply H3; [lia | reflexivity].
Defined.

(** X4.  The history is append-only.  An order that goes through adds
    exactly one record after the earlier ones: the side as it was
    written, the quantity, the price, and the cash and position the
    ledger has after the order. *)
Theorem market_order_appends :
  forall (side : string) (qty : Z) (price : Q) (self self' : Broker.t),
    Broker.market_order side qty price self = (Ok tt, self') ->
    Broker.trade_log self'
    = Broker.trade_log self ++
      [ {| Trade.side := side; Trade.qty := qty; Trade.price := price;
           Trade.cash := Broker.cash self';
           Trade.position := Broker.position self' |} ].
Proof.
  intros side qty price self self'. unfold Broker.market_order.
  destruct (qty <=? 0)%Z; [discriminate |].
  destruct (Qle_bool price 0); [discriminate |].
  intros E. injection E as <-.
  unfold Broker.append_trade, Broker.apply_side.
  destruct (String.eqb (lower side) "buy");
    [| destruct (String.eqb (lower side) "sell")]; reflexivity.
Qed.

Lemma market_order_appends_witness :
  exists self' : Broker.t,
    Broker.market_order "SELL" 2 110 (Broker.init 1000) = (Ok tt, self')
    /\ Broker.trade_log self'
       = [ {| Trade.side := "SELL"; Trade.qty := 2; Trade.price := 110;
              Trade.cash := Broker.cash self';
              Trade.position := Broker.position self' |} ].
Proof.
  eexists. split; [reflexivity |].
  exact (market_order_appends "SELL" 2 110 (Broker.init 1000) _ eq_refl).
Defined.

(** X5.  The side is read without regard to case: an order has the same
    outcome, cash and position with its side as written and with its
    side in lower case. *)
Theorem market_order_case_insensitive :
  forall (side : string) (qty : Z) (price : Q) (self : Broker.t),
    fst (Broker.market_order side qty price self)
    = fst (Broker.market_order (lower side) qty price self)
    /\ Broker.cash (snd (Broker.market_order side qty price self))
       = Broker.cash (snd (Broker.market_order (lower side) qty price self))
    /\ Broker.position (snd (Broker.market_order side qty price self))
       = Broker.position (snd (Broker.market_order (lower side) qty price self)).
Proof.
  intros side qty price self. unfold Broker.market_order.
  destruct (qty <=? 0)%Z; [auto |].
  destruct (Qle_bool price 0); [auto |].
  unfold Broker.append_trade, Broker.apply_side. rewrite lower_idem.
  cbn [fst snd Broker.cash Broker.position]. auto.
Qed.

(** * Further properties of the signal generator *)

(** ** No look-ahead: every operation commutes with taking a prefix *)

Section Prefix.
Import Series.

Lemma firstn_seq_prefix (n start len : nat) :
  firstn n (seq start len) = seq start (Nat.min n len).
Proof.
  revert start len. induction n as [| n IH]; intros start [| len]; cbn;
    [reflexivity .. |].
  f_equal. apply IH.
Qed.

Lemma firstn_repeat_prefix {A} (a : A) (n len : nat) :
  firstn n (repeat a len) = repeat a (Nat.min n len).
Proof.
  revert len. induction n as [| n IH]; intros [| len]; cbn; [reflexivity .. |].
  f_equal. apply IH.
Qed.

Lemma firstn_zip_with {A B C} (f : A -> B -> C) (n : nat) (xs : list A)
      (ys : list B) :
  firstn n (zip_with f xs ys) = zip_with f (firstn n xs) (firstn n ys).
Proof.
  revert xs ys. induction n as [| n IH]; intros [| x xs] [| y ys]; cbn;
    [reflexivity .. |].
  f_equal. apply IH.
Qed.

Lemma firstn_shift (n k : nat) (s : t) :
  firstn n (shift k s) = shift k (firstn n s).
Proof.
  unfold shift. rewrite firstn_firstn, length_firstn, !firstn_app.
  rewrite repeat_length, firstn_firstn. f_equal. f_equal. lia.
Qed.

Lemma firstn_ffill_from (n : nat) (last : option Q) (s : t) :
  firstn n (ffill_from last s) = ffill_from last (firstn n s).
Proof.
  revert last s. induction n as [| n IH]; intros last [| [a |] s]; cbn;
    [reflexivity .. | |]; f_equal; apply IH.
Qed.

Lemma firstn_pct_change (n : nat) (s : t) :
  firstn n (pct_change s) = pct_change (firstn n s).
Proof.
  unfold pct_change. now rewrite firstn_zip_with, firstn_shift.
Qed.

Lemma window_prefix (w i n : nat) (s : t) :
  (i < n)%nat -> window w i (firstn n s) = window w i s.
Proof.
  intros Hi. unfold window. rewrite firstn_firstn. do 2 f_equal. lia.
Qed.

Lemma firstn_rolling {SQ : Sqrt} (m w n : nat) (s : t) :
  firstn n (map (fun i => std_of m (window w i s)) (seq 0 (length s)))
  = map (fun i => std_of m (window w i (firstn n s)))
        (seq 0 (length (firstn n s))).
Proof.
  rewrite firstn_map, firstn_seq_prefix, length_firstn.
  apply map_ext_in. intros i Hi. apply in_seq in Hi.
  rewrite window_prefix; [reflexivity | lia].
Qed.

End Prefix.

Section Causality.
Import VolatilityBreakoutStrategy.
Context {SQ : Sqrt}.

Lemma firstn_held (self : t) (n : nat) (s : Series.t) :
  firstn n (held self s) = held self (firstn n s).
Proof.
  unfold held. destruct (hold self); [| reflexivity].
  unfold Series.fillna, Series.ffill, Series.replace_nan.
  now rewrite firstn_map, firstn_ffill_from, firstn_map.
Qed.

Lemma firstn_lagged (self : t) (n : nat) (s : Series.t) :
  firstn n (lagged self s) = lagged self (firstn n s).
Proof.
  unfold lagged. destruct (0 <? lag_signal self)%Z; [| reflexivity].
  unfold Series.fillna. now rewrite firstn_map, firstn_shift.
Qed.

Lemma firstn_raw (self : t) (n : nat) (ps up dn : Series.t) :
  firstn n (raw self ps up dn)
  = raw self (firstn n ps) (firstn n up) (firstn n dn).
Proof.
  unfold raw, Series.set_where.
  destruct (negb (long_only self));
    rewrite !firstn_zip_with, ?firstn_zip_with, firstn_repeat_prefix,
      length_firstn; reflexivity.
Qed.

Lemma vol_prefix (self : t) (prices : list Q) (n : nat) (v : Series.t) :
  vol self prices = Ok v -> vol self (firstn n prices) = Ok (firstn n v).
Proof.
  intros E.
  assert (Hlb : (0 <= lookback self)%Z).
  { destruct (Z.lt_ge_cases (lookback self) 0) as [H | H]; [| exact H].
    unfold vol in E. rewrite (rolling_std_raise _ _ H) in E. discriminate. }
  rewrite (vol_ok self prices Hlb) in E. injection E as <-.
  rewrite (vol_ok self (firstn n prices) Hlb). f_equal.
  rewrite firstn_shift, firstn_rolling, !firstn_pct_change, !firstn_map.
  reflexivity.
Qed.

End Causality.

Lemma signals_prefix {SQ : Sqrt} (self : VolatilityBreakoutStrategy.t)
      (prices : list Q) (n : nat) (sig : Series.t) :
  VolatilityBreakoutStrategy.signals self prices = Ok sig ->
  VolatilityBreakoutStrategy.signals self (firstn n prices)
  = Ok (firstn n sig).
Proof.
  intros E.
  apply signals_inv in E. destruct E as (Hlb & v & Hv & ->).
  destruct (signals_ok self (firstn n prices) Hlb) as (v' & Hv' & ->).
  rewrite (vol_prefix self prices n v Hv) in Hv'. injection Hv' as <-.
  rewrite firstn_lagged, firstn_held, firstn_raw.
  unfold VolatilityBreakoutStrategy.up_band, VolatilityBreakoutStrategy.dn_band.
  rewrite !firstn_zip_with, firstn_shift, firstn_map. reflexivity.
Qed.

(** X6.  No look-ahead.  The signals on the first [n] prices are the
    first [n] signals on all the prices: no value of the signal Series
    depends on a later price. *)
Theorem signals_no_lookahead :
  forall (SQ : Sqrt) (self : VolatilityBreakoutStrategy.t) (prices : list Q)
         (n : nat) (sig : Series.t),
    VolatilityBreakoutStrategy.signals self prices = Ok sig ->
    VolatilityBreakoutStrategy.signals self (firstn n prices)
    = Ok (firstn n sig).
Proof.
  intros SQ self prices n sig. apply signals_prefix.
Qed.

Lemma signals_no_lookahead_witness :
  @VolatilityBreakoutStrategy.signals SqrtDown sample_strategy sample_prices
  = Ok [Some 0; Some 0; Some 0; Some 1; Some 1; Some 1; Some 1;
        Some (-1); Some (-1)]
  /\ @VolatilityBreakoutStrategy.signals SqrtDown sample_strategy
       [100; 101; 100; 120; 110]
     = Ok [Some 0; Some 0; Some 0; Some 1; Some 1].
Proof.
  assert (E : @VolatilityBreakoutStrategy.signals SqrtDown sample_strategy
                sample_prices
              = Ok [Some 0; Some 0; Some 0; Some 1; Some 1; Some 1; Some 1;
                    Some (-1); Some (-1)])
    by (vm_compute; reflexivity).
  split; [exact E |].
  exact (signals_no_lookahead SqrtDown sample_strategy sample_prices 5 _ E).
Defined.

(** ** Warm-up *)

Section WarmUp.
Import Series.

Lemma observations_length (s : t) : (length (observations s) <= length s)%nat.
Proof.
  induction s as [| [a |] s IH]; cbn; lia.
Qed.

Lemma std_of_few {SQ : Sqrt} (m : nat) (win : t) :
  (length (observations win) < Nat.max m 2)%nat -> std_of m win = None.
Proof.
  intros H. unfold std_of.
  destruct (Nat.leb_spec (Nat.max m 1) (length (observations win)));
    destruct (Nat.ltb_spec 1 (length (observations win)));
    cbn; try reflexivity; lia.
Qed.

Lemma window_length (w i : nat) (s : t) : (length (window w i s) <= w)%nat.
Proof.
  unfold window. rewrite length_skipn, length_firstn. lia.
Qed.

Lemma pct_change_head (s : t) :
  pct_change s = match s with [] => [] | _ :: _ => None :: tl (pct_change s) end.
Proof.
  destruct s as [| x s]; [reflexivity |].
  unfold pct_change, shift. cbn. destruct x; reflexivity.
Qed.

Lemma window_early (w i : nat) (s : t) :
  (S i <= w)%nat ->
  (length (observations (window w i (pct_change s))) <= i)%nat.
Proof.
  intros H. unfold window. replace (S i - w)%nat with 0%nat by lia.
  cbn [skipn]. rewrite pct_change_head. destruct s as [| x s]; [cbn; lia |].
  cbn [firstn observations].
  etransitivity; [apply observations_length |]. rewrite length_firstn. lia.
Qed.

Lemma band_undefined (f : Q -> Q -> Q) (kk : Q) (prev v : t) :
  Forall (fun x => x = None) v ->
  Forall (fun x => x = None)
         (zip_with (fun q w => lift2 Qmult q (lift2 f (Some 1) (lift2 Qmult (Some kk) w)))
                   prev v).
Proof.
  apply (zip_with_Forall (fun _ => True) (fun x => x = None)).
  - intros q w _ ->. destruct q; reflexivity.
  - apply Forall_forall. auto.
Qed.

Lemma compare_undefined (ps band : t) :
  Forall (fun x => x = None) band ->
  Forall (fun m => m = false) (zip_with gt ps band)
  /\ Forall (fun m => m = false) (zip_with lt ps band).
Proof.
  intros H. split.
  - apply (zip_with_Forall (fun _ => True) (fun x => x = None)); auto.
    + intros x y _ ->. destruct x; reflexivity.
    + apply Forall_forall. auto.
  - apply (zip_with_Forall (fun _ => True) (fun x => x = None)); auto.
    + intros x y _ ->. destruct x; reflexivity.
    + apply Forall_forall. auto.
Qed.

End WarmUp.

Section Silent.
Import VolatilityBreakoutStrategy.
Context {SQ : Sqrt}.

(** Without a volatility there is no breakout. *)
Lemma signals_undefined_vol (self : t) (prices : list Q) (v : Series.t) :
  vol self prices = Ok v ->
  Forall (fun x => x = None) v ->
  signals self prices = Ok (repeat (Some 0) (length prices)).
Proof.
  intros Hv Hnone.
  assert (Hlb : (0 <= lookback self)%Z).
  { destruct (Z.lt_ge_cases (lookback self) 0) as [H | H]; [| exact H].
    unfold vol in Hv. rewrite (rolling_std_raise _ _ H) in Hv. discriminate. }
  destruct (signals_ok self prices Hlb) as (v' & Hv' & ->).
  assert (v' = v) by congruence. subst v'.
  pose proof (vol_length _ _ _ Hv) as Hlen.
  f_equal.
  enough (Hraw : raw self (map Some prices)
                   (up_band self (Series.shift 1 (map Some prices)) v)
                   (dn_band self (Series.shift 1 (map Some prices)) v)
                 = repeat (Some 0) (length prices))
    by (rewrite Hraw, held_zero; apply lagged_zero).
  unfold raw. rewrite length_map.
  assert (H1 : Series.set_where
                 (Series.zip_with Series.gt (map Some prices)
                    (up_band self (Series.shift 1 (map Some prices)) v)) 1
                 (repeat (Some 0) (length prices))
               = repeat (Some 0) (length prices)).
  { apply set_where_false.
    - apply compare_undefined, band_undefined, Hnone.
    - unfold up_band.
      rewrite !zip_with_length, shift_length, length_map, Hlen, repeat_length.
      lia. }
  rewrite H1. destruct (negb (long_only self)); [| reflexivity].
  apply set_where_false.
  - apply compare_undefined, band_undefined, Hnone.
  - unfold dn_band.
    rewrite !zip_with_length, shift_length, length_map, Hlen, repeat_length.
    lia.
Qed.

End Silent.

Section WarmUpSignals.
Import VolatilityBreakoutStrategy.
Context {SQ : Sqrt}.

Lemma shift_one_seq (f : nat -> option Q) (n : nat) :
  Series.shift 1 (map f (seq 0 n))
  = match n with 0%nat => [] | S m => None :: map f (seq 0 m) end.
Proof.
  unfold Series.shift. rewrite length_map, length_seq.
  destruct n as [| m]; [reflexivity |].
  cbn [repeat app firstn]. f_equal.
  rewrite firstn_map, firstn_seq_prefix. do 2 f_equal. lia.
Qed.

Lemma vol_degenerate (self : t) (prices : list Q) (v : Series.t) :
  (lookback self <= 1)%Z ->
  vol self prices = Ok v -> Forall (fun x => x = None) v.
Proof.
  intros Hone E.
  assert (Hlb : (0 <= lookback self)%Z).
  { destruct (Z.lt_ge_cases (lookback self) 0) as [H | H]; [| exact H].
    unfold vol in E. rewrite (rolling_std_raise _ _ H) in E. discriminate. }
  rewrite (vol_ok self prices Hlb) in E. injection E as <-.
  rewrite shift_one_seq.
  destruct (length _) as [| m]; constructor; [reflexivity |].
  apply Forall_map, Forall_forall. intros i _.
  apply std_of_few.
  pose proof (observations_length
                (Series.window (Z.to_nat (lookback self)) i
                   (Series.pct_change (map Some prices)))).
  pose proof (window_length (Z.to_nat (lookback self)) i
                (Series.pct_change (map Some prices))).
  lia.
Qed.

Lemma vol_short (self : t) (prices : list Q) (v : Series.t) :
  (length prices <= S (Z.to_nat (lookback self)))%nat ->
  vol self prices = Ok v -> Forall (fun x => x = None) v.
Proof.
  intros Hshort E.
  assert (Hlb : (0 <= lookback self)%Z).
  { destruct (Z.lt_ge_cases (lookback self) 0) as [H | H]; [| exact H].
    unfold vol in E. rewrite (rolling_std_raise _ _ H) in E. discriminate. }
  rewrite (vol_ok self prices Hlb) in E. injection E as <-.
  rewrite shift_one_seq, pct_change_length, length_map.
  destruct (length prices) as [| m] eqn:Hn; constructor; [reflexivity |].
  apply Forall_map, Forall_forall. intros i Hi. apply in_seq in Hi.
  apply std_of_few.
  pose proof (window_early (Z.to_nat (lookback self)) i (map Some prices)).
  lia.
Qed.

Lemma signals_lagged (self : t) (prices : list Q) (sig : Series.t) :
  signals self prices = Ok sig ->
  exists s0 : Series.t,
    signals (with_lag self 0) prices = Ok s0
    /\ sig = lagged self s0
    /\ Forall (valued (fun _ => True)) s0.
Proof.
  intros E. apply signals_inv in E. destruct E as (Hlb & v & Hv & ->).
  destruct (signals_ok (with_lag self 0) prices Hlb) as (v' & Hv' & E0).
  change (vol (with_lag self 0) prices) with (vol self prices) in Hv'.
  assert (v' = v) by congruence. subst v'.
  eexists. split; [exact E0 |]. split; [reflexivity |].
  apply lagged_valued, held_valued, raw_valued; auto.
Qed.

Lemma signals_warm (self : t) (prices : list Q) (sig : Series.t) (i : nat) :
  signals self prices = Ok sig ->
  (i < length prices)%nat ->
  (i <= Z.to_nat (lookback self) + Z.to_nat (lag_signal self))%nat ->
  nth_error sig i = Some (Some 0).
Proof.
  intros E Hi Hwarm.
  destruct (signals_lagged self prices sig E) as (s0 & E0 & -> & Hval).
  pose proof (signals_length _ _ _ E0) as Hlen.
  assert (H0 : forall j, (j < length prices)%nat ->
                         (j <= Z.to_nat (lookback self))%nat ->
                         nth_error s0 j = Some (Some 0)).
  { intros j Hj Hjl.
    pose proof (signals_prefix (with_lag self 0) prices
                  (S (Z.to_nat (lookback self))) s0 E0) as Ep.
    assert (Hv : exists v, vol (with_lag self 0)
                             (firstn (S (Z.to_nat (lookback self))) prices) = Ok v).
    { apply signals_inv in Ep. destruct Ep as (_ & v & Hv & _). eauto. }
    destruct Hv as (v & Hv).
    rewrite (signals_undefined_vol (with_lag self 0) _ v Hv) in Ep.
    - assert (Ep' : firstn (S (Z.to_nat (lookback self))) s0
                    = repeat (Some 0)
                        (length (firstn (S (Z.to_nat (lookback self))) prices)))
        by congruence.
      assert (Hn : nth_error (firstn (S (Z.to_nat (lookback self))) s0) j
                   = Some (Some 0)).
      { rewrite Ep'. apply nth_error_repeat. rewrite length_firstn. lia. }
      rewrite nth_error_firstn in Hn.
      destruct (Nat.ltb_spec j (S (Z.to_nat (lookback self)))); [exact Hn | lia].
    - apply (vol_short (with_lag self 0)
               (firstn (S (Z.to_nat (lookback self))) prices) v); [| exact Hv].
      rewrite length_firstn. cbn [with_lag lookback]. lia. }
  unfold lagged. destruct (Z.ltb_spec 0 (lag_signal self)) as [Hl | Hl].
  - rewrite (fillna_shift _ s0 Hval), nth_error_shifted by lia.
    destruct (Nat.ltb_spec i (Z.to_nat (lag_signal self))); [reflexivity |].
    apply H0; lia.
  - apply H0; lia.
Qed.

End WarmUpSignals.

(** X7.  Warm-up.  The signal is 0 at every place up to
    [lookback + lag_signal] (a lag [<= 0] counting for 0): the first
    breakout needs [lookback] returns before the current bar, and the
    lag delays it further. *)
Theorem signals_warm_up :
  forall (SQ : Sqrt) (self : VolatilityBreakoutStrategy.t) (prices : list Q)
         (sig : Series.t) (i : nat),
    VolatilityBreakoutStrategy.signals self prices = Ok sig ->
    (i < length prices)%nat ->
    (i <= Z.to_nat (VolatilityBreakoutStrategy.lookback self)
          + Z.to_nat (VolatilityBreakoutStrategy.lag_signal self))%nat ->
    nth_error sig i = Some (Some 0).
Proof.
  intros SQ self prices sig i. apply signals_warm.
Qed.

Lemma signals_warm_up_witness :
  @VolatilityBreakoutStrategy.signals SqrtDown sample_strategy sample_prices
  = Ok [Some 0; Some 0; Some 0; Some 1; Some 1; Some 1; Some 1;
        Some (-1); Some (-1)]
  /\ nth_error [Some 0; Some 0; Some 0; Some 1; Some 1; Some 1; Some 1;
                Some (-1); Some (-1)] 2
     = Some (Some (0 : Q)).
Proof.
  assert (E : @VolatilityBreakoutStrategy.signals SqrtDown sample_strategy
                sample_prices
              = Ok [Some 0; Some 0; Some 0; Some 1; Some 1; Some 1; Some 1;
                    Some (-1); Some (-1)])
    by (vm_compute; reflexivity).
  split; [exact E |].
  apply (signals_warm_up SqrtDown sample_strategy sample_prices _ 2 E);
    cbn; lia.
Defined.

(** X8.  A look-back of 0 or 1 silences the generator: a sample standard
    deviation needs two returns, so the bands are never defined and
    every signal is 0, whatever the prices. *)
Theorem signals_degenerate_lookback :
  forall (SQ : Sqrt) (self : VolatilityBreakoutStrategy.t) (prices : list Q),
    (0 <= VolatilityBreakoutStrategy.lookback self <= 1)%Z ->
    VolatilityBreakoutStrategy.signals self prices
    = Ok (repeat (Some 0) (length prices)).
Proof.
  intros SQ self prices [Hlb Hone].
  destruct (signals_ok self prices Hlb) as (v & Hv & _).
  apply (signals_undefined_vol self prices v Hv).
  apply (vol_degenerate self prices v Hone Hv).
Qed.

Lemma signals_degenerate_lookback_witness :
  (0 <= 1 <= 1)%Z
  /\ @VolatilityBreakoutStrategy.signals SqrtDown
       {| VolatilityBreakoutStrategy.lookback := 1;
          VolatilityBreakoutStrategy.k := 0;
          VolatilityBreakoutStrategy.hold := false;
          VolatilityBreakoutStrategy.lag_signal := 0;
          VolatilityBreakoutStrategy.long_only := false |} sample_prices
     = Ok (repeat (Some 0) 9).
Proof.
  split; [lia |].
  exact (signals_degenerate_lookback SqrtDown
           {| VolatilityBreakoutStrategy.lookback := 1;
              VolatilityBreakoutStrategy.k := 0;
              VolatilityBreakoutStrategy.hold := false;
              VolatilityBreakoutStrategy.lag_signal := 0;
              VolatilityBreakoutStrategy.long_only := false |}
           sample_prices ltac:(cbn; lia)).
Defined.

(** ** Hold mode *)

Lemma hold_carry (last : option Q) (s : Series.t) (i : nat) (a : Q) :
  nth_error s i = Some (Some a) ->
  nth_error (Series.fillna 0 (Series.ffill_from last (Series.replace_nan 0 s))) i
  = if Qeq_bool a 0
    then match i with
         | 0%nat => Some (Some (match last with Some b => b | None => 0 end))
         | S j => nth_error (Series.fillna 0
                               (Series.ffill_from last (Series.replace_nan 0 s))) j
         end
    else Some (Some a).
Proof.
  revert last i. induction s as [| x s IH]; intros last i Hi.
  - destruct i; discriminate.
  - destruct i as [| j].
    + cbn in Hi. injection Hi as ->. cbn.
      destruct (Qeq_bool a 0); cbn; [destruct last |]; reflexivity.
    + cbn [nth_error] in Hi.
      assert (Hcons : exists y last',
                 Series.fillna 0 (Series.ffill_from last (Series.replace_nan 0 (x :: s)))
                 = Some y :: Series.fillna 0
                               (Series.ffill_from last' (Series.replace_nan 0 s))
                 /\ y = match last' with Some b => b | None => 0 end).
      { cbn. destruct x as [b |]; [destruct (Qeq_bool b 0) |]; cbn.
        - exists (match last with Some c => c | None => 0 end), last.
          split; [destruct last |]; reflexivity.
        - exists b, (Some b). split; reflexivity.
        - exists (match last with Some c => c | None => 0 end), last.
          split; [destruct last |]; reflexivity. }
      destruct Hcons as (y & last' & -> & Hy). cbn [nth_error].
      rewrite (IH last' j Hi).
      destruct (Qeq_bool a 0); [| reflexivity].
      destruct j; [now subst y | reflexivity].
Qed.

(** X9.  Hold mode carries the last breakout forward.  Compare, without
    lag, the transient signal [raw] ([hold] off) with the held signal
    ([hold] on) of one configuration: where [raw] is not 0 the held
    signal equals it, and where [raw] is 0 the held signal repeats its
    own previous value, starting from 0. *)
Theorem hold_carries_forward :
  forall (SQ : Sqrt) (self : VolatilityBreakoutStrategy.t) (prices : list Q)
         (raw : Series.t),
    VolatilityBreakoutStrategy.signals (with_hold self false) prices = Ok raw ->
    exists sig : Series.t,
      VolatilityBreakoutStrategy.signals (with_hold self true) prices = Ok sig
      /\ length sig = length raw
      /\ forall (i : nat) (a : Q),
          nth_error raw i = Some (Some a) ->
          nth_error sig i
          = if Qeq_bool a 0
            then match i with
                 | 0%nat => Some (Some 0)
                 | S j => nth_error sig j
                 end
            else Some (Some a).
Proof.
  intros SQ self prices raw E.
  apply signals_inv in E. destruct E as (Hlb & v & Hv & ->).
  destruct (signals_ok (with_hold self true) prices Hlb) as (v' & Hv' & ->).
  change (VolatilityBreakoutStrategy.vol (with_hold self true) prices)
    with (VolatilityBreakoutStrategy.vol (with_hold self false) prices) in Hv'.
  assert (v' = v) by congruence. subst v'.
  eexists. split; [reflexivity |].
  unfold VolatilityBreakoutStrategy.lagged, VolatilityBreakoutStrategy.held.
  cbn [with_hold VolatilityBreakoutStrategy.lag_signal
         VolatilityBreakoutStrategy.hold Z.ltb Z.compare].
  split.
  - unfold Series.ffill.
    now rewrite fillna_length, ffill_from_length, replace_nan_length.
  - intros i a Hi. apply (hold_carry None _ i a Hi).
Qed.

Lemma hold_carries_forward_witness :
  @VolatilityBreakoutStrategy.signals SqrtDown (with_hold sample_strategy false)
    sample_prices
  = Ok [Some 0; Some 0; Some 0; Some 1; Some 0; Some 0; Some 0;
        Some (-1); Some 0]
  /\ exists sig : Series.t,
      @VolatilityBreakoutStrategy.signals SqrtDown (with_hold sample_strategy true)
        sample_prices = Ok sig
      /\ nth_error sig 8 = nth_error sig 7
      /\ nth_error sig 7 = Some (Some (-1)).
Proof.
  assert (E : @VolatilityBreakoutStrategy.signals SqrtDown
                (with_hold sample_strategy false) sample_prices
              = Ok [Some 0; Some 0; Some 0; Some 1; Some 0; Some 0; Some 0;
                    Some (-1); Some 0])
    by (vm_compute; reflexivity).
  split; [exact E |].
  destruct (hold_carries_forward SqrtDown sample_strategy sample_prices _ E)
    as (sig & Es & _ & Hc).
  exists sig. split; [exact Es |]. split.
  - exact (Hc 8%nat 0 eq_refl).
  - exact (Hc 7%nat (-1) eq_refl).
Defined.

(** ** Long-only exposure *)

Lemma normalize_binary (sig : Series.t) :
  Forall (valued (fun a => a = 0 \/ a = 1)) sig ->
  Backtester.normalize sig = sig.
Proof.
  induction 1 as [| x s Hx Hs IH]; [reflexivity |].
  unfold Backtester.normalize, Series.clip, Series.fillna in *.
  cbn [map]. rewrite IH. f_equal.
  destruct x as [a |]; cbn in Hx; [| tauto].
  destruct Hx as [-> | ->]; reflexivity.
Qed.

(** X10.  For a long-only generator the engine's clipping changes
    nothing: the exposure curve [run] returns is the Series [signals]
    returned, value for value. *)
Theorem long_only_exposure_is_signal :
  forall (SQ : Sqrt) (strategy : VolatilityBreakoutStrategy.t)
         (prices : list Q) (self self' : Broker.t)
         (res : Backtester.run_result),
    VolatilityBreakoutStrategy.long_only strategy = true ->
    Backtester.run strategy prices self = (Ok res, self') ->
    VolatilityBreakoutStrategy.signals strategy prices
    = Ok (Backtester.signals res).
Proof.
  intros SQ strategy prices self self' res Hlo E.
  apply run_inv in E. destruct E as (sig & Hsig & E).
  apply run_signals_inv in E. destruct E as (-> & _).
  rewrite normalize_binary; [exact Hsig |].
  apply (signals_valued (fun a => a = 0 \/ a = 1)) in Hsig; auto.
  rewrite Hlo. discriminate.
Qed.

Lemma long_only_exposure_is_signal_witness :
  exists (res : Backtester.run_result) (self' : Broker.t),
    @Backtester.run SqrtDown
      {| VolatilityBreakoutStrategy.lookback := 2;
         VolatilityBreakoutStrategy.k := 1;
         VolatilityBreakoutStrategy.hold := false;
         VolatilityBreakoutStrategy.lag_signal := 1;
         VolatilityBreakoutStrategy.long_only := true |}
      sample_prices (Broker.init 1000) = (Ok res, self')
    /\ @VolatilityBreakoutStrategy.signals SqrtDown
         {| VolatilityBreakoutStrategy.lookback := 2;
            VolatilityBreakoutStrategy.k := 1;
            VolatilityBreakoutStrategy.hold := false;
            VolatilityBreakoutStrategy.lag_signal := 1;
            VolatilityBreakoutStrategy.long_only := true |} sample_prices
       = Ok (Backtester.signals res).
Proof.
  match goal with
  | |- exists res self', ?run = _ /\ _ =>
      let v := eval vm_compute in run in
      match v with
      | (Ok ?r, ?s) =>
          exists r, s;
          assert (Hrun : run = (Ok r, s)) by (vm_compute; reflexivity)
      end
  end.
  split; [exact Hrun |].
  exact (long_only_exposure_is_signal SqrtDown
           {| VolatilityBreakoutStrategy.lookback := 2;
              VolatilityBreakoutStrategy.k := 1;
              VolatilityBreakoutStrategy.hold := false;
              VolatilityBreakoutStrategy.lag_signal := 1;
              VolatilityBreakoutStrategy.long_only := true |}
           sample_prices _ _ _ eq_refl Hrun).
Defined.

(** * Further properties of the engine *)

(** ** When a pass or a run raises *)

Lemma floor_nonpos_quotient (x y : Q) :
  0 <= x -> y < 0 -> (Qfloor (x / y) <= 0)%Z.
Proof.
  intros Hx Hy.
  assert (Hne : ~ y == 0)
    by (intros E; rewrite E in Hy; revert Hy; apply Qlt_irrefl).
  assert (E : x / y == (- x) / (- y)) by (field; exact Hne).
  rewrite (Qfloor_comp _ _ E), <- (Qfloor_Z 0).
  apply Qfloor_resp_le. change (inject_Z 0) with 0.
  apply Qle_shift_div_r; lra.
Qed.

(** X11.  A generator with a negative look-back aborts [run] before the
    loop starts: [run] raises the [ValueError] of the rolling window and
    the ledger is handed back untouched, whatever the prices. *)
Theorem run_negative_lookback :
  forall (SQ : Sqrt) (strategy : VolatilityBreakoutStrategy.t)
         (prices : list Q) (self : Broker.t),
    (VolatilityBreakoutStrategy.lookback strategy < 0)%Z ->
    Backtester.run strategy prices self
    = (Raise (ValueError "min_periods must be >= 0"), self).
Proof.
  intros SQ strategy prices self H.
  unfold Backtester.run, Broker.bind, Broker.lift.
  now rewrite (signals_raise strategy prices H).
Qed.

Lemma run_negative_lookback_witness :
  (-1 < 0)%Z
  /\ @Backtester.run SqrtDown
       {| VolatilityBreakoutStrategy.lookback := -1;
          VolatilityBreakoutStrategy.k := 1;
          VolatilityBreakoutStrategy.hold := true;
          VolatilityBreakoutStrategy.lag_signal := 1;
          VolatilityBreakoutStrategy.long_only := true |}
       sample_prices (Broker.init 1000)
     = (Raise (ValueError "min_periods must be >= 0"), Broker.init 1000).
Proof.
  split; [lia |].
  exact (run_negative_lookback SqrtDown
           {| VolatilityBreakoutStrategy.lookback := -1;
              VolatilityBreakoutStrategy.k := 1;
              VolatilityBreakoutStrategy.hold := true;
              VolatilityBreakoutStrategy.lag_signal := 1;
              VolatilityBreakoutStrategy.long_only := true |}
           sample_prices (Broker.init 1000) ltac:(cbn; lia)).
Defined.

(** X12.  Prices that are not positive.  At an entry transition a zero
    price raises [ZeroDivisionError] (from the floor division, before any
    order), and a negative price with non-negative cash places no order
    and raises nothing.  At an exit transition with a position to sell, a
    price [<= 0] raises the ledger's "Price must be positive.".  Every
    raise leaves the ledger as it was. *)
Theorem step_nonpositive_price :
  forall (sig : Series.t) (st : Backtester.loop_state) (dt : nat)
         (prev cur px : Q) (self : Broker.t),
    Backtester.prev_sig st = Some prev ->
    nth_error sig dt = Some (Some cur) ->
    (prev <= 0 -> 0 < cur -> px == 0 ->
     Backtester.step sig st (dt, px) self = (Raise ZeroDivisionError, self))
    /\ (prev <= 0 -> 0 < cur -> px < 0 -> 0 <= Broker.cash self ->
        exists st' : Backtester.loop_state,
          Backtester.step sig st (dt, px) self = (Ok st', self))
    /\ (0 < prev -> cur <= 0 -> px <= 0 -> (0 < Broker.position self)%Z ->
        Backtester.step sig st (dt, px) self
        = (Raise (ValueError "Price must be positive."), self)).
Proof.
  intros sig st dt prev cur px self Hst Hsig.
  rewrite (step_unfold sig st dt px _ self Hsig), Hst.
  unfold Backtester.trade. cbn [Series.le Series.gt].
  repeat split.
  - intros Hprev Hcur Hpx.
    apply Qle_bool_iff in Hprev. apply Qltb_lt in Hcur.
    rewrite Hprev, Hcur. cbn [andb].
    unfold Broker.bind, Broker.get, Broker.lift, floordiv.
    apply Qeq_bool_iff in Hpx. now rewrite Hpx.
  - intros Hprev Hcur Hpx Hcash.
    apply Qle_bool_iff in Hprev. apply Qltb_lt in Hcur.
    rewrite Hprev, Hcur. cbn [andb].
    unfold Broker.bind, Broker.get, Broker.lift, floordiv.
    assert (Hz : Qeq_bool px 0 = false).
    { apply not_true_iff_false. intros E. apply Qeq_bool_iff in E.
      rewrite E in Hpx. revert Hpx. apply Qlt_irrefl. }
    rewrite Hz.
    pose proof (floor_nonpos_quotient (Broker.cash self) px Hcash Hpx).
    destruct (Z.ltb_spec 0 (Qfloor (Broker.cash self / px))); [lia |].
    eexists. reflexivity.
  - intros Hprev Hcur Hpx Hpos.
    pose proof Hprev as Hprev'. apply Qle_bool_gt in Hprev'.
    apply Qltb_lt in Hprev. apply Qle_bool_iff in Hcur.
    rewrite Hprev', Hprev, Hcur. cbn [andb].
    unfold Broker.bind, Broker.get.
    destruct (Z.ltb_spec 0 (Broker.position self)); [| lia].
    destruct (market_order_spec "sell" (Broker.position self) px self Hpos)
      as [[Hpx' _] | [_ E]]; [| now rewrite E].
    exfalso. revert Hpx'. apply Qle_not_lt, Hpx.
Qed.

Lemma step_nonpositive_price_witness :
  (0 # 1) <= 0 /\ 0 < 1 /\ (0 # 1) == 0
  /\ Backtester.step [Some 1] {| Backtester.prev_sig := Some 0;
                                 Backtester.equity_acc := [] |}
       (0%nat, 0) (Broker.init 1000)
     = (Raise ZeroDivisionError, Broker.init 1000)
  /\ Backtester.step [Some 0] {| Backtester.prev_sig := Some 1;
                                 Backtester.equity_acc := [] |}
       (0%nat, -5)
       {| Broker.cash := 40; Broker.position := 8; Broker.trade_log := [] |}
     = (Raise (ValueError "Price must be positive."),
        {| Broker.cash := 40; Broker.position := 8; Broker.trade_log := [] |}).
Proof.
  split; [apply Qle_refl |]. split; [reflexivity |]. split; [reflexivity |].
  split.
  - exact (proj1 (step_nonpositive_price [Some 1]
                    {| Backtester.prev_sig := Some 0;
                       Backtester.equity_acc := [] |}
                    0%nat 0 1 0 (Broker.init 1000) eq_refl eq_refl)
             (Qle_refl 0) eq_refl eq_refl).
  - exact (proj2 (proj2 (step_nonpositive_price [Some 0]
                    {| Backtester.prev_sig := Some 1;
                       Backtester.equity_acc := [] |}
                    0%nat 1 0 (-5)
                    {| Broker.cash := 40; Broker.position := 8;
                       Broker.trade_log := [] |} eq_refl eq_refl))
             eq_refl (Qle_refl 0) ltac:(discriminate) eq_refl).
Defined.

Lemma loop_missing_label (sig : Series.t) (prices : list Q) :
  Forall (fun p => 0 < p) prices ->
  forall (start : nat) (st : Backtester.loop_state) (self : Broker.t),
    (start <= length sig)%nat ->
    (length sig < start + length prices)%nat ->
    fst (Backtester.loop sig st (combine (seq start (length prices)) prices) self)
    = Raise (KeyError (length sig)).
Proof.
  induction 1 as [| px prices Hpx Hpos IH]; intros start st self Hlo Hhi.
  - cbn in Hhi. lia.
  - cbn [length seq combine Backtester.loop]. unfold Broker.bind.
    destruct (Nat.eq_dec start (length sig)) as [-> | Hne].
    + rewrite step_missing; [reflexivity |].
      apply nth_error_None. lia.
    + destruct (step_ok sig st start px self Hpx ltac:(lia)) as (st1 & s1 & ->).
      apply IH; cbn [length] in Hhi; lia.
Qed.

(** X13.  A signal Series shorter than the price Series.  When the
    strategy's answer has fewer places than there are (positive) prices,
    the loop runs through the places it has and then raises [KeyError]
    on the first label without a signal. *)
Theorem run_signals_missing_label :
  forall (sig : Series.t) (prices : list Q) (self : Broker.t),
    Forall (fun p => 0 < p) prices ->
    (length sig < length prices)%nat ->
    fst (Backtester.run_signals sig prices self) = Raise (KeyError (length sig)).
Proof.
  intros sig prices self Hpos Hlen.
  unfold Backtester.run_signals, Broker.bind, Backtester.items.
  pose proof (loop_missing_label (Backtester.normalize sig) prices Hpos 0
                {| Backtester.prev_sig := Some 0; Backtester.equity_acc := [] |}
                self) as H.
  rewrite normalize_length in H. specialize (H ltac:(lia) ltac:(lia)).
  destruct (Backtester.loop _ _ _ self) as [[st' | e] s1]; cbn in H;
    [discriminate |].
  cbn. injection H as ->. reflexivity.
Qed.

Lemma run_signals_missing_label_witness :
  Forall (fun p => 0 < p) [100; 100; 100]
  /\ fst (Backtester.run_signals [Some 0; Some 1] [100; 100; 100]
            (Broker.init 1000))
     = Raise (KeyError 2).
Proof.
  assert (H : Forall (fun p => 0 < p) [100; 100; 100]) by (repeat constructor).
  split; [exact H |].
  exact (run_signals_missing_label [Some 0; Some 1] [100; 100; 100]
           (Broker.init 1000) H ltac:(cbn; lia)).
Defined.

(** ** Equity *)

Lemma trade_value_neutral (prev cur : option Q) (px : Q) (self : Broker.t) :
  Broker.total_value px (snd (Backtester.trade prev cur px self))
  == Broker.total_value px self.
Proof.
  destruct (trade_spec_holds prev cur px self) as [r _ | _ _ | _ _];
    cbn [snd]; [reflexivity | |];
    apply (apply_side_value _ _ px self).
Qed.

Lemma step_value (sig : Series.t) (st st' : Backtester.loop_state) (dt : nat)
      (px : Q) (self self' : Broker.t) :
  Backtester.step sig st (dt, px) self = (Ok st', self') ->
  Backtester.equity_acc st'
  = Backtester.equity_acc st ++ [(dt, Broker.total_value px self')]
  /\ Broker.total_value px self' == Broker.total_value px self.
Proof.
  intros E. split; [apply (step_equity _ _ _ _ _ _ E) |].
  destruct (nth_error sig dt) as [cur |] eqn:Hsig.
  - rewrite (step_unfold sig st dt px cur self Hsig) in E.
    pose proof (trade_value_neutral (Backtester.prev_sig st) cur px self) as Hv.
    destruct (Backtester.trade (Backtester.prev_sig st) cur px self)
      as [[[] | e] s1]; [| discriminate].
    injection E as _ <-. exact Hv.
  - rewrite (step_missing sig st dt px self Hsig) in E. discriminate.
Qed.

Lemma loop_acc_extends (sig : Series.t) (items : list (nat * Q)) :
  forall (st st' : Backtester.loop_state) (self self' : Broker.t),
    Backtester.loop sig st items self = (Ok st', self') ->
    exists more : list (nat * Q),
      Backtester.equity_acc st' = Backtester.equity_acc st ++ more
      /\ length more = length items.
Proof.
  induction items as [| [dt px] rest IH]; intros st st' self self' E.
  - cbn in E. injection E as <- <-. exists []. now rewrite app_nil_r.
  - cbn [Backtester.loop] in E. unfold Broker.bind in E.
    destruct (Backtester.step sig st (dt, px) self) as [[st1 | e] s1] eqn:Hstep;
      [| discriminate].
    apply step_value in Hstep. destruct Hstep as [Hacc _].
    destruct (IH _ _ _ _ E) as (more & Hmore & Hlen).
    exists ((dt, Broker.total_value px s1) :: more).
    rewrite Hmore, Hacc, <- app_assoc. cbn. auto.
Qed.

(** X14.  Orders are value-neutral, so the first point of the equity
    curve is the ledger's value before the run: whatever the signals say
    on the first bar, a run from a fresh ledger that returns starts its
    equity curve at the initial cash. *)
Theorem first_equity_is_initial_cash :
  forall (sig : Series.t) (px : Q) (prices : list Q) (cash0 : Q)
         (res : Backtester.run_result) (self' : Broker.t),
    Backtester.run_signals sig (px :: prices) (Broker.init cash0)
    = (Ok res, self') ->
    exists (e : Q) (rest : list Q),
      Backtester.equity res = e :: rest /\ e == cash0.
Proof.
  intros sig px prices cash0 res self' E.
  apply run_signals_inv in E.
  destruct E as (_ & _ & _ & _ & st' & Hloop & ->).
  unfold Backtester.items in Hloop.
  cbn [length seq combine Backtester.loop] in Hloop.
  unfold Broker.bind in Hloop.
  destruct (Backtester.step _ _ (0%nat, px) (Broker.init cash0))
    as [[st1 | e] s1] eqn:Hstep; [| discriminate].
  apply step_value in Hstep. destruct Hstep as [Hacc Hval].
  apply loop_acc_extends in Hloop. destruct Hloop as (more & -> & _).
  rewrite Hacc. cbn [Backtester.equity_acc app map snd].
  eexists. eexists. split; [reflexivity |].
  rewrite Hval. unfold Broker.total_value.
  cbn [Broker.cash Broker.position Broker.init].
  change (inject_Z 0) with 0. ring.
Qed.

Lemma first_equity_is_initial_cash_witness :
  exists (res : Backtester.run_result) (self' : Broker.t) (e : Q) (rest : list Q),
    Backtester.run_signals [Some 1; Some 1; Some 0] [30; 40; 50]
      (Broker.init 1000) = (Ok res, self')
    /\ Broker.trade_log self' <> []
    /\ Backtester.equity res = e :: rest /\ e == 1000.
Proof.
  match goal with
  | |- exists res self' e rest, ?run = _ /\ _ =>
      let v := eval vm_compute in run in
      match v with
      | (Ok ?r, ?s) =>
          exists r, s;
          assert (Hrun : run = (Ok r, s)) by (vm_compute; reflexivity)
      end
  end.
  destruct (first_equity_is_initial_cash _ _ _ _ _ _ Hrun) as (e & rest & He & Hc).
  exists e, rest. split; [exact Hrun |]. split; [discriminate |]. auto.
Defined.

(** ** Round trips *)

Lemma round_trips_nonneg (log : list Trade.t) (q : Z) :
  round_trips log q -> (0 <= q)%Z.
Proof.
  induction 1; lia.
Qed.

Lemma buy_round_trip (q : Z) (px : Q) (self : Broker.t) :
  round_trips (Broker.trade_log self) (Broker.position self) ->
  Broker.position self = 0%Z -> (0 < q)%Z ->
  round_trips
    (Broker.trade_log (Broker.append_trade "buy" q px
                         (Broker.apply_side "buy" q px self)))
    (Broker.position (Broker.append_trade "buy" q px
                        (Broker.apply_side "buy" q px self))).
Proof.
  intros Hrt H0 Hq. unfold Broker.append_trade, Broker.apply_side.
  rewrite lower_buy.
  cbn [String.eqb Ascii.eqb Bool.eqb Broker.cash Broker.position Broker.trade_log].
  rewrite H0 in *. rewrite Z.add_0_l. now apply round_trips_buy.
Qed.

Lemma sell_round_trip (px : Q) (self : Broker.t) :
  round_trips (Broker.trade_log self) (Broker.position self) ->
  (0 < Broker.position self)%Z ->
  round_trips
    (Broker.trade_log (Broker.append_trade "sell" (Broker.position self) px
                         (Broker.apply_side "sell" (Broker.position self) px self)))
    (Broker.position (Broker.append_trade "sell" (Broker.position self) px
                        (Broker.apply_side "sell" (Broker.position self) px self)))
  /\ Broker.position (Broker.append_trade "sell" (Broker.position self) px
                        (Broker.apply_side "sell" (Broker.position self) px self))
     = 0%Z.
Proof.
  intros Hrt Hq. unfold Broker.append_trade, Broker.apply_side.
  rewrite lower_sell.
  cbn [String.eqb Ascii.eqb Bool.eqb Broker.cash Broker.position Broker.trade_log].
  rewrite Z.sub_diag. split; [| reflexivity]. now apply round_trips_sell.
Qed.

Lemma trade_inv (p c px : Q) (self : Broker.t) :
  engine_inv (Some p) self ->
  round_trips (Broker.trade_log (snd (Backtester.trade (Some p) (Some c) px self)))
              (Broker.position (snd (Backtester.trade (Some p) (Some c) px self)))
  /\ (fst (Backtester.trade (Some p) (Some c) px self) = Ok tt ->
      engine_inv (Some c) (snd (Backtester.trade (Some p) (Some c) px self))).
Proof.
  intros (Hrt & p' & Hp' & Hflat). injection Hp' as <-.
  unfold Backtester.trade. cbn [Series.le Series.gt].
  destruct (Qle_bool p 0) eqn:Hp; [destruct (Qltb 0 c) eqn:Hc |]; cbn [andb].
  - (* entry *)
    apply Qle_bool_iff in Hp. apply Qltb_lt in Hc.
    assert (Hout : c <= 0 -> False) by (intros H; revert Hc; apply Qle_not_lt, H).
    unfold Broker.bind, Broker.get, Broker.lift, floordiv.
    destruct (Qeq_bool px 0); [cbn; split; [exact Hrt | discriminate] |].
    destruct (Z.ltb_spec 0 (Qfloor (Broker.cash self / px))) as [Hq | Hq].
    + destruct (market_order_spec "buy" _ px self Hq) as [[_ E] | [_ E]];
        rewrite E; cbn [fst snd].
      * pose proof (buy_round_trip _ px self Hrt (Hflat Hp) Hq) as Hb.
        split; [exact Hb |]. intros _. split; [exact Hb |].
        exists c. split; [reflexivity | intros H; destruct (Hout H)].
      * split; [exact Hrt | discriminate].
    + cbn. split; [exact Hrt |]. intros _. split; [exact Hrt |].
      exists c. split; [reflexivity | intros H; destruct (Hout H)].
  - (* already out, staying out *)
    apply Qle_bool_iff in Hp.
    assert (Hgt : Qltb 0 p = false) by (apply Qltb_ge, Hp).
    rewrite Hgt. cbn. split; [exact Hrt |]. intros _. split; [exact Hrt |].
    exists c. split; [reflexivity | intros _; apply Hflat, Hp].
  - (* in the market *)
    apply Qle_bool_gt in Hp. pose proof Hp as Hp2. apply Qltb_lt in Hp2.
    rewrite Hp2. cbn [andb].
    destruct (Qle_bool c 0) eqn:Hc.
    + unfold Broker.bind, Broker.get.
      destruct (Z.ltb_spec 0 (Broker.position self)) as [Hq | Hq].
      * destruct (market_order_spec "sell" _ px self Hq) as [[_ E] | [_ E]];
          rewrite E; cbn [fst snd].
        -- destruct (sell_round_trip px self Hrt Hq) as [Hs Hz].
           split; [exact Hs |]. intros _. split; [exact Hs |].
           exists c. split; [reflexivity | intros _; exact Hz].
        -- split; [exact Hrt | discriminate].
      * cbn. split; [exact Hrt |]. intros _. split; [exact Hrt |].
        exists c. split; [reflexivity |]. intros _.
        pose proof (round_trips_nonneg _ _ Hrt). lia.
    + cbn. split; [exact Hrt |]. intros _. split; [exact Hrt |].
      exists c. split; [reflexivity |]. intros H.
      apply Qle_bool_iff in H. congruence.
Qed.

Lemma valued_lookup (sig : Series.t) (dt : nat) (x : option Q) :
  Forall (valued (fun _ => True)) sig ->
  nth_error sig dt = Some x -> exists c : Q, x = Some c.
Proof.
  intros Hval Hx. apply nth_error_In in Hx.
  rewrite Forall_forall in Hval. specialize (Hval x Hx).
  destruct x as [c |]; [eauto | destruct Hval].
Qed.

Lemma step_inv (sig : Series.t) (st : Backtester.loop_state) (item : nat * Q)
      (self : Broker.t) :
  Forall (valued (fun _ => True)) sig ->
  engine_inv (Backtester.prev_sig st) self ->
  round_trips (Broker.trade_log (snd (Backtester.step sig st item self)))
              (Broker.position (snd (Backtester.step sig st item self)))
  /\ forall st' : Backtester.loop_state,
      fst (Backtester.step sig st item self) = Ok st' ->
      engine_inv (Backtester.prev_sig st') (snd (Backtester.step sig st item self)).
Proof.
  intros Hval Hinv. destruct item as [dt px].
  destruct (nth_error sig dt) as [cur |] eqn:Hsig.
  - destruct (valued_lookup sig dt cur Hval Hsig) as (c & ->).
    rewrite (step_unfold sig st dt px _ self Hsig).
    pose proof Hinv as (_ & p & Hp & _). rewrite Hp in *.
    destruct (trade_inv p c px self Hinv) as [Hrt Hok].
    destruct (Backtester.trade (Some p) (Some c) px self) as [[[] | e] s1];
      cbn [fst snd] in *.
    + split; [exact Hrt |]. intros st' E. injection E as <-. cbn. auto.
    + split; [exact Hrt | discriminate].
  - rewrite (step_missing sig st dt px self Hsig). cbn.
    split; [apply Hinv | discriminate].
Qed.

Lemma loop_inv (sig : Series.t) (items : list (nat * Q)) :
  Forall (valued (fun _ => True)) sig ->
  forall (st : Backtester.loop_state) (self : Broker.t),
    engine_inv (Backtester.prev_sig st) self ->
    round_trips (Broker.trade_log (snd (Backtester.loop sig st items self)))
                (Broker.position (snd (Backtester.loop sig st items self)))
    /\ forall st' : Backtester.loop_state,
        fst (Backtester.loop sig st items self) = Ok st' ->
        engine_inv (Backtester.prev_sig st') (snd (Backtester.loop sig st items self)).
Proof.
  intros Hval. induction items as [| item rest IH]; intros st self Hinv.
  - cbn. split; [apply Hinv |]. intros st' E. injection E as <-. exact Hinv.
  - cbn [Backtester.loop]. unfold Broker.bind.
    destruct (step_inv sig st item self Hval Hinv) as [Hrt Hok].
    destruct (Backtester.step sig st item self) as [[st1 | e] s1];
      cbn [fst snd] in *.
    + apply IH, Hok. reflexivity.
    + split; [exact Hrt | discriminate].
Qed.

Lemma normalize_valued (sig : Series.t) :
  Forall (valued (fun _ => True)) (Backtester.normalize sig).
Proof.
  generalize (normalize_unit_interval sig). apply Forall_impl.
  intros [a |]; cbn; tauto.
Qed.

Lemma fresh_inv (cash0 : Q) : engine_inv (Some 0) (Broker.init cash0).
Proof.
  split; [constructor |]. exists 0. split; reflexivity.
Qed.

(** X16.  From a fresh ledger the engine only makes round trips: in the
    history a run leaves behind, returning or raising, Buys and Sells
    alternate from a Buy on, every Buy starts from no position and every
    Sell returns the whole quantity of the Buy before it, leaving
    position 0. *)
Theorem run_makes_round_trips :
  forall (cash0 : Q) (prices : list Q),
    (forall sig : Series.t,
        let self' := snd (Backtester.run_signals sig prices (Broker.init cash0)) in
        round_trips (Broker.trade_log self') (Broker.position self'))
    /\ (forall (SQ : Sqrt) (strategy : VolatilityBreakoutStrategy.t),
           let self' := snd (Backtester.run strategy prices (Broker.init cash0)) in
           round_trips (Broker.trade_log self') (Broker.position self')).
Proof.
  intros cash0 prices.
  assert (H : forall sig : Series.t,
             round_trips
               (Broker.trade_log
                  (snd (Backtester.run_signals sig prices (Broker.init cash0))))
               (Broker.position
                  (snd (Backtester.run_signals sig prices (Broker.init cash0))))).
  { intros sig. rewrite run_signals_state.
    apply loop_inv; [apply normalize_valued | apply fresh_inv]. }
  split; [exact H |].
  intros SQ strategy. unfold Backtester.run, Broker.bind, Broker.lift.
  destruct (VolatilityBreakoutStrategy.signals strategy prices) as [sig | e].
  - apply H.
  - constructor.
Qed.

Lemma loop_last_prev (sig : Series.t) (prices : list Q) :
  forall (start : nat) (st st' : Backtester.loop_state) (self self' : Broker.t),
    prices <> [] ->
    Backtester.loop sig st (combine (seq start (length prices)) prices) self
    = (Ok st', self') ->
    nth_error sig (start + length prices - 1) = Some (Backtester.prev_sig st').
Proof.
  induction prices as [| px prices IH]; intros start st st' self self' Hne E;
    [congruence |].
  cbn [length seq combine Backtester.loop] in E. unfold Broker.bind in E.
  destruct (Backtester.step sig st (start, px) self) as [[st1 | e] s1] eqn:Hstep;
    [| discriminate].
  destruct prices as [| px2 rest].
  - cbn in E. injection E as <- <-.
    apply step_equity in Hstep. cbn [fst length] in *.
    replace (start + 1 - 1)%nat with start by lia. apply Hstep.
  - apply IH in E; [| discriminate].
    cbn [length] in *. rewrite <- E. f_equal. lia.
Qed.

(** X17.  Out of the market means flat.  When a run from a fresh ledger
    returns and the exposure on the last bar is not positive, the ledger
    ends with position 0. *)
Theorem run_ends_flat :
  forall (sig : Series.t) (prices : list Q) (cash0 c : Q)
         (res : Backtester.run_result) (self' : Broker.t),
    Backtester.run_signals sig prices (Broker.init cash0) = (Ok res, self') ->
    prices <> [] ->
    nth_error (Backtester.signals res) (length prices - 1) = Some (Some c) ->
    c <= 0 ->
    Broker.position self' = 0%Z.
Proof.
  intros sig prices cash0 c res self' E Hne Hlast Hc.
  apply run_signals_inv in E. destruct E as (Hs & _ & _ & _ & st' & Hloop & _).
  rewrite Hs in Hlast.
  pose proof (loop_last_prev _ prices 0 _ _ _ _ Hne Hloop) as Hprev.
  cbn [Nat.add] in Hprev. rewrite Hlast in Hprev. injection Hprev as Hprev.
  destruct (loop_inv (Backtester.normalize sig) (Backtester.items prices)
              (normalize_valued sig)
              {| Backtester.prev_sig := Some 0; Backtester.equity_acc := [] |}
              (Broker.init cash0) (fresh_inv cash0)) as [_ Hinv].
  rewrite Hloop in Hinv. destruct (Hinv st' eq_refl) as (_ & p & Hp & Hflat).
  cbn [snd] in Hflat. apply Hflat.
  assert (p = c) by congruence. now subst p.
Qed.

Lemma run_ends_flat_witness :
  exists (res : Backtester.run_result) (self' : Broker.t),
    Backtester.run_signals [Some 0; Some 1; Some 1; Some 0] [100; 100; 110; 120]
      (Broker.init 1000) = (Ok res, self')
    /\ length (Broker.trade_log self') = 2%nat
    /\ Broker.position self' = 0%Z.
Proof.
  match goal with
  | |- exists res self', ?run = _ /\ _ =>
      let v := eval vm_compute in run in
      match v with
      | (Ok ?r, ?s) =>
          exists r, s;
          assert (Hrun : run = (Ok r, s)) by (vm_compute; reflexivity)
      end
  end.
  split; [exact Hrun |]. split; [reflexivity |].
  apply (run_ends_flat _ _ _ 0 _ _ Hrun);
    [discriminate | reflexivity | apply Qle_refl].
Defined.

(** ** The history through a run *)

Lemma trade_extends (prev cur : option Q) (px : Q) (self : Broker.t) :
  exists added : list Trade.t,
    Broker.trade_log (snd (Backtester.trade prev cur px self))
    = Broker.trade_log self ++ added
    /\ (length added <= 1)%nat.
Proof.
  destruct (trade_spec_holds prev cur px self) as [r _ | _ _ | _ _]; cbn [snd].
  - exists []. split; [now rewrite app_nil_r | cbn; lia].
  - eexists. unfold Broker.append_trade, Broker.apply_side. rewrite lower_buy.
    cbn [String.eqb Ascii.eqb Bool.eqb Broker.trade_log].
    split; [reflexivity | cbn; lia].
  - eexists. unfold Broker.append_trade, Broker.apply_side. rewrite lower_sell.
    cbn [String.eqb Ascii.eqb Bool.eqb Broker.trade_log].
    split; [reflexivity | cbn; lia].
Qed.

Lemma step_extends (sig : Series.t) (st : Backtester.loop_state)
      (item : nat * Q) (self : Broker.t) :
  exists added : list Trade.t,
    Broker.trade_log (snd (Backtester.step sig st item self))
    = Broker.trade_log self ++ added
    /\ (length added <= 1)%nat.
Proof.
  destruct item as [dt px].
  destruct (nth_error sig dt) as [cur |] eqn:Hsig.
  - rewrite (step_unfold sig st dt px cur self Hsig).
    destruct (trade_extends (Backtester.prev_sig st) cur px self) as (added & H).
    exists added.
    destruct (Backtester.trade (Backtester.prev_sig st) cur px self)
      as [[[] | e] s1]; exact H.
  - rewrite (step_missing sig st dt px self Hsig).
    exists []. cbn. split; [now rewrite app_nil_r | lia].
Qed.

Lemma loop_extends (sig : Series.t) (items : list (nat * Q)) :
  forall (st : Backtester.loop_state) (self : Broker.t),
    exists added : list Trade.t,
      Broker.trade_log (snd (Backtester.loop sig st items self))
      = Broker.trade_log self ++ added
      /\ (length added <= length items)%nat.
Proof.
  induction items as [| item rest IH]; intros st self.
  - exists []. cbn. split; [now rewrite app_nil_r | lia].
  - cbn [Backtester.loop]. unfold Broker.bind.
    destruct (step_extends sig st item self) as (a1 & H1 & L1).
    destruct (Backtester.step sig st item self) as [[st1 | e] s1];
      cbn [snd] in H1.
    + destruct (IH st1 s1) as (a2 & H2 & L2).
      exists (a1 ++ a2). rewrite H2, H1, <- app_assoc, length_app.
      cbn [length]. split; [reflexivity | lia].
    + exists a1. cbn [snd length]. split; [exact H1 | lia].
Qed.

(** X19.  A run only appends to the history: whatever ledger it is given
    and whether it returns or raises, the records the ledger had stay in
    place at the front, and at most one record per price is added. *)
Theorem run_extends_history :
  forall (sig : Series.t) (prices : list Q) (self : Broker.t),
    exists added : list Trade.t,
      Broker.trade_log (snd (Backtester.run_signals sig prices self))
      = Broker.trade_log self ++ added
      /\ (length added <= length prices)%nat.
Proof.
  intros sig prices self. rewrite run_signals_state, <- (items_length prices).
  apply loop_extends.
Qed.

(** ** A run on a prefix of the prices *)

Lemma loop_app (sig : Series.t) (l1 l2 : list (nat * Q)) :
  forall (st : Backtester.loop_state) (self : Broker.t),
    Backtester.loop sig st (l1 ++ l2) self
    = match Backtester.loop sig st l1 self with
      | (Ok st1, s1) => Backtester.loop sig st1 l2 s1
      | (Raise e, s1) => (Raise e, s1)
      end.
Proof.
  induction l1 as [| item l1 IH]; intros st self; [reflexivity |].
  cbn [app Backtester.loop]. unfold Broker.bind.
  destruct (Backtester.step sig st item self) as [[st1 | e] s1];
    [apply IH | reflexivity].
Qed.

Lemma loop_sig_agree (sig1 sig2 : Series.t) (items : list (nat * Q)) :
  Forall (fun item => nth_error sig1 (fst item) = nth_error sig2 (fst item)) items ->
  forall (st : Backtester.loop_state) (self : Broker.t),
    Backtester.loop sig1 st items self = Backtester.loop sig2 st items self.
Proof.
  induction 1 as [| [dt px] rest Hsig _ IH]; intros st self; [reflexivity |].
  cbn [Backtester.loop]. unfold Broker.bind.
  assert (E : Backtester.step sig1 st (dt, px) self
              = Backtester.step sig2 st (dt, px) self).
  { unfold Backtester.step, Backtester.loc. cbn [fst] in Hsig. now rewrite Hsig. }
  rewrite E.
  destruct (Backtester.step sig2 st (dt, px) self) as [[st1 | e] s1];
    [apply IH | reflexivity].
Qed.

Lemma items_prefix (n : nat) (prices : list Q) :
  Backtester.items (firstn n prices) = firstn n (Backtester.items prices).
Proof.
  unfold Backtester.items.
  now rewrite combine_firstn, firstn_seq_prefix, length_firstn.
Qed.

Lemma normalize_prefix (n : nat) (sig : Series.t) :
  Backtester.normalize (firstn n sig) = firstn n (Backtester.normalize sig).
Proof.
  unfold Backtester.normalize, Series.clip, Series.fillna.
  now rewrite !firstn_map.
Qed.

Lemma prefix_of_two {A} (n len : nat) (m1 m2 : list A) :
  length m1 = Nat.min n len -> length m2 = (len - n)%nat ->
  firstn n (m1 ++ m2) = m1.
Proof.
  intros H1 H2. rewrite firstn_app, (firstn_all2 m1) by lia.
  destruct (Nat.le_gt_cases n len).
  - replace (n - length m1)%nat with 0%nat by lia. cbn. apply app_nil_r.
  - destruct m2; [| cbn in H2; lia]. rewrite firstn_nil. apply app_nil_r.
Qed.

Lemma run_signals_prefix (sig : Series.t) (prices : list Q) (n : nat)
      (self self' : Broker.t) (res : Backtester.run_result) :
  Backtester.run_signals sig prices self = (Ok res, self') ->
  exists (res_n : Backtester.run_result) (self_n : Broker.t),
    Backtester.run_signals (firstn n sig) (firstn n prices) self
    = (Ok res_n, self_n)
    /\ Backtester.equity res_n = firstn n (Backtester.equity res)
    /\ Backtester.signals res_n = firstn n (Backtester.signals res)
    /\ exists later : list Trade.t,
        Broker.trade_log self' = Broker.trade_log self_n ++ later.
Proof.
  intros E. apply run_signals_inv in E.
  destruct E as (Hs & _ & _ & _ & st' & Hloop & He).
  rewrite <- (firstn_skipn n (Backtester.items prices)), loop_app in Hloop.
  destruct (Backtester.loop (Backtester.normalize sig) _
              (firstn n (Backtester.items prices)) self)
    as [[st1 | e] s1] eqn:H1; [| discriminate].
  assert (Hn : Backtester.loop (Backtester.normalize (firstn n sig))
                 {| Backtester.prev_sig := Some 0; Backtester.equity_acc := [] |}
                 (Backtester.items (firstn n prices)) self
               = (Ok st1, s1)).
  { rewrite normalize_prefix, items_prefix, <- H1.
    apply loop_sig_agree, Forall_forall. intros [dt px] Hin. cbn [fst].
    rewrite <- items_prefix in Hin. unfold Backtester.items in Hin.
    apply in_combine_l, in_seq in Hin. rewrite length_firstn in Hin.
    rewrite nth_error_firstn.
    destruct (Nat.ltb_spec dt n); [reflexivity | lia]. }
  unfold Backtester.run_signals at 1, Broker.bind, Broker.get, Broker.ret.
  rewrite Hn. eexists. eexists. split; [reflexivity |].
  cbn [Backtester.equity Backtester.signals].
  split; [| split].
  - destruct (loop_acc_extends _ _ _ _ _ _ H1) as (m1 & Hm1 & L1).
    destruct (loop_acc_extends _ _ _ _ _ _ Hloop) as (m2 & Hm2 & L2).
    cbn [Backtester.equity_acc app] in Hm1.
    rewrite He, Hm2, Hm1, firstn_map. f_equal. symmetry.
    apply (prefix_of_two n (length prices)).
    + rewrite L1, length_firstn, items_length. reflexivity.
    + rewrite L2, length_skipn, items_length. reflexivity.
  - now rewrite Hs, normalize_prefix.
  - destruct (loop_extends (Backtester.normalize sig)
                (skipn n (Backtester.items prices)) st1 s1) as (later & Hl & _).
    rewrite Hloop in Hl. cbn [snd] in Hl. eauto.
Qed.

(** X20.  A backtest does not look ahead.  If [run] returns on a price
    sequence then it returns on each of its prefixes, from the same
    ledger, with the first [n] points of the same equity curve and of the
    same exposure curve, and with a history that the longer run only
    adds to. *)
Theorem run_prefix_stable :
  forall (SQ : Sqrt) (strategy : VolatilityBreakoutStrategy.t)
         (prices : list Q) (n : nat) (self self' : Broker.t)
         (res : Backtester.run_result),
    Backtester.run strategy prices self = (Ok res, self') ->
    exists (res_n : Backtester.run_result) (self_n : Broker.t),
      Backtester.run strategy (firstn n prices) self = (Ok res_n, self_n)
      /\ Backtester.equity res_n = firstn n (Backtester.equity res)
      /\ Backtester.signals res_n = firstn n (Backtester.signals res)
      /\ exists later : list Trade.t,
          Broker.trade_log self' = Broker.trade_log self_n ++ later.
Proof.
  intros SQ strategy prices n self self' res E.
  apply run_inv in E. destruct E as (sig & Hsig & E).
  unfold Backtester.run, Broker.bind, Broker.lift.
  rewrite (signals_prefix strategy prices n sig Hsig).
  apply (run_signals_prefix sig prices n self self' res E).
Qed.

Lemma run_prefix_stable_witness :
  exists (res res5 : Backtester.run_result) (self' self5 : Broker.t),
    @Backtester.run SqrtDown sample_strategy sample_prices (Broker.init 1000)
    = (Ok res, self')
    /\ @Backtester.run SqrtDown sample_strategy (firstn 5 sample_prices)
         (Broker.init 1000) = (Ok res5, self5)
    /\ Backtester.equity res5 = firstn 5 (Backtester.equity res).
Proof.
  match goal with
  | |- exists res res5 self' self5, ?run = _ /\ _ =>
      let v := eval vm_compute in run in
      match v with
      | (Ok ?r, ?s) =>
          assert (Hrun : run = (Ok r, s)) by (vm_compute; reflexivity)
      end
  end.
  destruct (run_prefix_stable SqrtDown sample_strategy sample_prices 5 _ _ _ Hrun)
    as (res5 & self5 & E5 & He & _).
  eexists. exists res5. eexists. exists self5.
  split; [exact Hrun |]. split; [exact E5 | exact He].
Defined.

(** ** Inaction *)

(** X22.  No order without a change of side.  When the previous and the
    current exposure are both [<= 0], or both [> 0], or one of them is
    missing, the pass places no order and raises nothing, whatever the
    price and the ledger: it only marks the ledger to market. *)
Theorem step_without_transition :
  forall (sig : Series.t) (st : Backtester.loop_state) (dt : nat)
         (cur : option Q) (px : Q) (self : Broker.t),
    nth_error sig dt = Some cur ->
    (Backtester.prev_sig st = None \/ cur = None
     \/ (exists p c, Backtester.prev_sig st = Some p /\ cur = Some c
                     /\ ((p <= 0 /\ c <= 0) \/ (0 < p /\ 0 < c)))) ->
    Backtester.step sig st (dt, px) self
    = (Ok {| Backtester.prev_sig := cur;
             Backtester.equity_acc :=
               Backtester.equity_acc st ++ [(dt, Broker.total_value px self)] |},
       self).
Proof.
  intros sig st dt cur px self Hsig Hcase.
  rewrite (step_unfold sig st dt px cur self Hsig).
  enough (E : Backtester.trade (Backtester.prev_sig st) cur px self = (Ok tt, self))
    by now rewrite E.
  unfold Backtester.trade.
  destruct Hcase as [-> | [-> | (p & c & -> & -> & Hpc)]].
  - reflexivity.
  - destruct (Backtester.prev_sig st); cbn; rewrite ?andb_false_r; reflexivity.
  - cbn [Series.le Series.gt]. destruct Hpc as [[Hp Hc] | [Hp Hc]].
    + assert (H1 : Qltb 0 c = false) by (apply Qltb_ge, Hc).
      assert (H2 : Qltb 0 p = false) by (apply Qltb_ge, Hp).
      now rewrite H1, H2, andb_false_r.
    + assert (H1 : Qle_bool p 0 = false) by (apply Qle_bool_gt, Hp).
      assert (H2 : Qle_bool c 0 = false) by (apply Qle_bool_gt, Hc).
      now rewrite H1, H2, andb_false_r.
Qed.

Lemma step_without_transition_witness :
  Backtester.step [Some 1] {| Backtester.prev_sig := Some 1;
                              Backtester.equity_acc := [] |}
                  (0%nat, -3) (Broker.init 1000)
  = (Ok {| Backtester.prev_sig := Some 1;
           Backtester.equity_acc :=
             [(0%nat, Broker.total_value (-3) (Broker.init 1000))] |},
     Broker.init 1000).
Proof.
  apply (step_without_transition [Some 1]
           {| Backtester.prev_sig := Some 1; Backtester.equity_acc := [] |}
           0%nat (Some 1) (-3) (Broker.init 1000) eq_refl).
  right. right. exists 1, 1.
  split; [reflexivity |]. split; [reflexivity |]. right. split; reflexivity.
Defined.
